(** * async-pixiv: the illustration section and the artwork model

    A shallow embedding of [async_pixiv/model/artwork.py] and
    [async_pixiv/client/_section/_illust.py].

    Python values are modelled as follows.
    - [int] is [Z]; [bytes] is [list Byte.byte]; [str] is [string].
      Case mapping ([str.title]) is defined on the ASCII letters, every
      other character is uncased and mapped to itself.
    - [Optional[T]] is [option T]; an exception is [Raise e] in [Result].
    - [await]ed transport calls are steps of the monad [M], which threads
      the history of events issued so far; what the server answers is
      given by an environment [Env] that may depend on that history. *)

From Stdlib Require Import ZArith List String Ascii Bool Lia.
From Stdlib Require Import DecimalString DecimalZ.
Import ListNotations.
Local Open Scope string_scope.
Local Open Scope list_scope.
Local Open Scope Z_scope.
Set Warnings "-register-all".

(** ** Exceptions and results *)

Inductive Exn : Type :=
| ArtWorkTypeError (msg : string)
| TypeError
| ValueError
| IndexError
| KeyError (key : string)
| BadZipFile
| AttributeError
| OtherError (what : string).

Inductive Result (A : Type) : Type :=
| Ok (a : A)
| Raise (e : Exn).
Arguments Ok {A} a.
Arguments Raise {A} e.

Definition bytes : Type := list Byte.byte.

(** ** Python primitives used by the source *)

(** Truthiness of an [Optional[str]]: [None] and the empty string are falsy. *)
Definition truthy (o : option string) : bool :=
  match o with
  | Some s => negb (String.eqb s "")
  | None => false
  end.

(** [a or b]: the first operand when it is truthy, the second otherwise. *)
Definition py_or (a b : option string) : option string :=
  if truthy a then a else b.

(** [str(x)] for [x : Optional[str]]. *)
Definition py_str (o : option string) : string :=
  match o with
  | Some s => s
  | None => "None"
  end.

Definition is_upper (c : ascii) : bool :=
  (Nat.leb 65 (nat_of_ascii c) && Nat.leb (nat_of_ascii c) 90)%bool.

Definition is_lower (c : ascii) : bool :=
  (Nat.leb 97 (nat_of_ascii c) && Nat.leb (nat_of_ascii c) 122)%bool.

Definition is_cased (c : ascii) : bool := (is_upper c || is_lower c)%bool.

Definition to_lower (c : ascii) : ascii :=
  if is_upper c then ascii_of_nat (nat_of_ascii c + 32) else c.

Definition to_title (c : ascii) : ascii :=
  if is_lower c then ascii_of_nat (nat_of_ascii c - 32) else c.

(** [str.title]: a character that follows a cased character is lowercased,
    any other character is titlecased. *)
Fixpoint title_from (previous_is_cased : bool) (s : string) : string :=
  match s with
  | EmptyString => EmptyString
  | String c rest =>
      String (if previous_is_cased then to_lower c else to_title c)
             (title_from (is_cased c) rest)
  end.

Definition str_title (s : string) : string := title_from false s.

(** [s.replace(old, new)] for a one-character [old]. *)
Fixpoint str_replace (old : ascii) (new : string) (s : string) : string :=
  match s with
  | EmptyString => EmptyString
  | String c rest =>
      if Ascii.eqb c old then String.append new (str_replace old new rest)
      else String c (str_replace old new rest)
  end.

(** [xs[i]] for [i >= 0]: [IndexError] out of range. *)
Definition py_index {A : Type} (xs : list A) (i : nat) : Result A :=
  match nth_error xs i with
  | Some x => Ok x
  | None => Raise IndexError
  end.

(** ** [ArtWorkType] *)

Module ArtWorkType.

Inductive t : Type := illust | ugoira | manga | novel.

Definition value (self : t) : string :=
  match self with
  | illust => "illust"
  | ugoira => "ugoira"
  | manga => "manga"
  | novel => "novel"
  end.

(** The right operand of [==], as [__eq__] observes it: either an
    [ArtWorkType] member, or any other object, of which only the outcome
    of [str(other)] matters. *)
Inductive Operand : Type :=
| Member (u : t)
| Object (str_of : Result string).

(** A plain [str]: [str(s)] is [s]. *)
Definition of_str (s : string) : Operand := Object (Ok s).

Definition eq (self : t) (other : Operand) : Result bool :=
  match other with
  | Member u => Ok (String.eqb (value self) (value u))
  | Object str_of =>
      match str_of with
      | Ok s => Ok (String.eqb (value self) s)
      | Raise TypeError => Ok false
      | Raise ValueError => Ok false
      | Raise e => Raise e
      end
  end.

(** [!=] is not overridden: Python inverts the result of [__eq__]. *)
Definition ne (self : t) (other : Operand) : Result bool :=
  match eq self other with
  | Ok b => Ok (negb b)
  | Raise e => Raise e
  end.

End ArtWorkType.

(** ** The schema records

    Only the fields that the modelled methods read are kept. *)

(** Modelled from the spec: [ImageUrl] is declared in
    [async_pixiv/model/other.py], a module outside the two files embedded here.
    The spec describes it as an image-URL bundle of several resolution
    variants with optional fields; the code reads [original], [large] and
    [medium] and tests each for truthiness. *)
Record ImageUrl : Type := {
  square_medium : option string;
  medium : option string;
  large : option string;
  original : option string
}.

Record Tag : Type := {
  name : string;
  translated_name : option string
}.

(** [ArtWork.MetaPage] *)
Record MetaPage : Type := {
  page_image_urls : ImageUrl
}.

(** [ArtWork.MetaSinglePage]; the field is [original] in the source. *)
Record MetaSinglePage : Type := {
  single_original : option string
}.

Record ArtWork : Type := {
  art_id : Z;
  type_ : ArtWorkType.t;
  image_urls : ImageUrl;
  tags : list Tag;
  sanity_level : Z;
  meta_single_page : MetaSinglePage;
  meta_pages : list MetaPage
}.

(** [UgoiraMetadata.Frame] *)
Record Frame : Type := {
  file : string;
  delay : Z
}.

Record UgoiraMetadata : Type := {
  zip_url : ImageUrl;
  frames : list Frame
}.

(** ** Derived properties of [ArtWork] *)

Definition is_nsfw (self : ArtWork) : bool := sanity_level self >? 5.

Definition is_r18 (self : ArtWork) : Result bool :=
  if Z.of_nat (List.length (tags self)) >=? 1 then
    match py_index (tags self) 0 with
    | Ok tag0 =>
        Ok (String.eqb (str_replace "-"%char "" (str_title (name tag0))) "R18")
    | Raise e => Raise e
    end
  else Ok false.

(** ** Values sent to and received from the transport *)

(** Python values that appear as query parameters.  [PListClass] is the
    builtin class object [list] itself, the right operand of the identity
    test in [ILLUST.related]; [PEnum] is a member of one of the enumerations
    of [_section/_base.py] ([SearchFilter.ios], [IllustType.illust], ...). *)
Inductive PyVal : Type :=
| PNone
| PBool (b : bool)
| PInt (z : Z)
| PStr (s : string)
| PEnum (member : string)
| PList (items : list PyVal)
| PListClass.

Definition of_optional_int (o : option Z) : PyVal :=
  match o with
  | Some z => PInt z
  | None => PNone
  end.

(** [x is list]: identity with the builtin class object. *)
Definition is_list_class (x : PyVal) : bool :=
  match x with
  | PListClass => true
  | _ => false
  end.

Inductive JSON : Type :=
| JNull
| JBool (b : bool)
| JNum (z : Z)
| JStr (s : string)
| JArr (items : list JSON)
| JObj (members : list (string * JSON)).

(** The two API roots of [_section/_base.py]; [root / path] is [api root path]. *)
Inductive ApiRoot : Type := V1_API | V2_API.

Record URL : Type := api {
  root : ApiRoot;
  path : string
}.

Definition Params : Type := list (string * PyVal).

Record date : Type := {
  year : Z;
  month : Z;
  day : Z
}.

(** The result classes of [async_pixiv/model/result.py], by the attributes
    the section reads: [illust] and [metadata].  The other classes are kept
    as the class together with the parsed body. *)
Record IllustDetailResult : Type := {
  illust : ArtWork
}.

Record UgoiraMetadataResult : Type := {
  metadata : UgoiraMetadata
}.

Inductive ResultClass : Type :=
| IllustSearchResult
| IllustCommentResult
| IllustRelatedResult
| RecommendedResult
| IllustNewResult.

Record Parsed : Type := {
  parsed_class : ResultClass;
  parsed_body : JSON
}.

(** ** Events and the environment *)

Inductive Event : Type :=
| Get (url : URL) (params : Params)
    (** [self._client.get(url, params=params)] *)
| Download (url : option string) (output : option string)
    (** [self._client.download(url, output=output)] *)
| ZipFileInit (data : bytes)
    (** [ZipFile(BytesIO(data))] *)
| ZipFileRead (member : string)
    (** [zip_file.open(member)] followed by [f.read()] *).

Definition History : Type := list Event.

(** What the outside world answers: the HTTP transport, the pydantic
    parsers and the standard library ([zipfile], [date.strftime]). *)
Record Env : Type := {
  http_get : History -> URL -> Params -> Result JSON;
  http_download : History -> option string -> option string -> Result (option bytes);
  parse_detail : JSON -> Result IllustDetailResult;
  parse_ugoira : JSON -> Result UgoiraMetadataResult;
  parse_obj : ResultClass -> JSON -> Result Parsed;
  zip_init : bytes -> Result unit;
  zip_read : bytes -> string -> Result bytes;
  strftime : date -> string -> string
}.

(** A [ZipFile] object wraps the payload it was opened on. *)
Record ZipFile : Type := {
  zip_payload : bytes
}.

(** ** The monad of client calls *)

Definition M (A : Type) : Type := History -> History * Result A.

Definition ret {A : Type} (a : A) : M A := fun h => (h, Ok a).

Definition raise {A : Type} (e : Exn) : M A := fun h => (h, Raise e).

Definition bind {A B : Type} (m : M A) (k : A -> M B) : M B :=
  fun h =>
    match m h with
    | (h', Ok a) => k a h'
    | (h', Raise e) => (h', Raise e)
    end.

Definition lift {A : Type} (r : Result A) : M A := fun h => (h, r).

Declare Scope client_scope.
Delimit Scope client_scope with client.
Notation "x <- m ;; k" := (bind m (fun x => k))
  (at level 61, m at next level, right associativity) : client_scope.
Local Open Scope client_scope.

(** The events a call adds to the history [h] it starts from. *)
Definition issued {A : Type} (m : M A) (h : History) : list Event :=
  skipn (List.length h) (fst (m h)).

Definition outcome {A : Type} (m : M A) (h : History) : Result A := snd (m h).

Section Client.

Variable env : Env.

(** [await (await self._client.get(url, params=params)).json()] *)
Definition client_get (url : URL) (params : Params) : M JSON :=
  fun h => (h ++ [Get url params], http_get env h url params).

(** [await self._client.download(url, output=output)] *)
Definition client_download (url : option string) (output : option string)
  : M (option bytes) :=
  fun h => (h ++ [Download url output], http_download env h url output).

(** [ZipFile(BytesIO(data))] *)
Definition ZipFile_new (data : bytes) : M ZipFile :=
  fun h =>
    (h ++ [ZipFileInit data],
     match zip_init env data with
     | Ok _ => Ok {| zip_payload := data |}
     | Raise e => Raise e
     end).

(** [with zip_file.open(member) as f: f.read()] *)
Definition ZipFile_read (zip_file : ZipFile) (member : string) : M bytes :=
  fun h => (h ++ [ZipFileRead member], zip_read env (zip_payload zip_file) member).

(** [for x in xs: result.append(await body(x))], started on [result]. *)
Fixpoint for_append {A B : Type} (body : A -> M B) (xs : list A) (result : list B)
  : M (list B) :=
  match xs with
  | [] => ret result
  | x :: rest =>
      b <- body x ;;
      for_append body rest (result ++ [b])
  end.

(** ** The illustration section, [ILLUST] *)

Definition double_quote : string := String "034"%char "".

(** The message of [ILLUST.download]. *)
Definition use_download_ugoira : string :=
  ("If you want to download a moving image, please use this method: "
     ++ double_quote ++ "download_ugoira" ++ double_quote)%string.

(** The message of [ArtWork.download_ugoira]. *)
Definition use_download : string :=
  ("If you want to download a moving image, please use this method: "
     ++ double_quote ++ "download" ++ double_quote)%string.

Definition ILLUST_follow (offset : option Z) : M Parsed :=
  data <- client_get (api V2_API "illust/follow")
            [("restrict", PStr "public"); ("offset", of_optional_int offset)] ;;
  lift (parse_obj env IllustSearchResult data).

(** Modelled from the spec: [_Section.search] is defined in
    [_section/_base.py], outside the two files embedded here.  Per the spec
    an accessor formats one HTTP request against a known URL, with the
    optional parameters forwarded verbatim, and awaits the JSON body.  The
    path is not fixed by the spec. *)
Definition Section_search (kwargs : Params) : M JSON :=
  client_get (api V1_API "search/illust") kwargs.

(** Modelled from the spec: [_Section.detail], as [Section_search]. *)
Definition Section_detail (id : Z) (filter : PyVal) : M JSON :=
  client_get (api V1_API "illust/detail")
    [("illust_id", PInt id); ("filter", filter)].

Definition format_date (d : option date) : PyVal :=
  match d with
  | Some d' => PStr (strftime env d' "%Y-%m-%d")
  | None => PNone
  end.

Definition ILLUST_search (word : string) (sort target duration filter : PyVal)
    (offset min_bookmarks max_bookmarks : option Z)
    (start_date end_date : option date) : M Parsed :=
  let start_date := format_date start_date in
  let end_date := format_date end_date in
  data <- Section_search
            [("word", PStr word); ("sort", sort); ("duration", duration);
             ("filter", filter); ("offset", of_optional_int offset);
             ("bookmark_num_min", of_optional_int min_bookmarks);
             ("bookmark_num_max", of_optional_int max_bookmarks);
             ("target", target);
             ("start_date", start_date); ("end_date", end_date)] ;;
  lift (parse_obj env IllustSearchResult data).

Definition ILLUST_detail (id : Z) (filter : PyVal) : M IllustDetailResult :=
  data <- Section_detail id filter ;;
  lift (parse_detail env data).

Definition ILLUST_comments (id : Z) (offset : option Z) : M Parsed :=
  data <- client_get (api V1_API "illust/comments")
            [("illust_id", PInt id); ("offset", of_optional_int offset)] ;;
  lift (parse_obj env IllustCommentResult data).

Definition ILLUST_related (id : Z) (filter : PyVal) (offset : option Z)
    (seed_ids : PyVal) : M Parsed :=
  data <- client_get (api V2_API "illust/related")
            [("illust_id", PInt id);
             ("offset", of_optional_int offset);
             ("filter", filter);
             ("seed_illust_ids",
               if negb (is_list_class seed_ids) then PList [seed_ids]
               else seed_ids)] ;;
  lift (parse_obj env IllustRelatedResult data).

Definition ILLUST_recommended (with_auth : bool) (type : PyVal)
    (include_ranking_label : bool) (include_ranking_illusts : option bool)
    (offset : option Z) (filter : PyVal)
    (max_bookmark_id_for_recommend min_bookmark_id_for_recent_illust : option Z)
    (bookmark_illust_ids include_privacy_policy viewed : PyVal) : M Parsed :=
  data <- client_get
            (api V1_API
               (if with_auth then "illust/recommended"
                else "illust/recommended-nologin"))
            [("content_type", type);
             ("include_ranking_label", PBool include_ranking_label);
             ("include_ranking_illusts",
               match include_ranking_illusts with
               | Some b => PBool b
               | None => PNone
               end);
             ("offset", of_optional_int offset);
             ("filter", filter);
             ("viewed", viewed);
             ("max_bookmark_id_for_recommend",
               of_optional_int max_bookmark_id_for_recommend);
             ("min_bookmark_id_for_recent_illust",
               of_optional_int min_bookmark_id_for_recent_illust);
             ("bookmark_illust_ids", bookmark_illust_ids);
             ("include_privacy_policy", include_privacy_policy)] ;;
  lift (parse_obj env RecommendedResult data).

Definition ILLUST_new_illusts (type : string) (filter : PyVal)
    (max_illust_id : option Z) : M Parsed :=
  data <- client_get (api V1_API "illust/new")
            [("content_type", PStr type);
             ("max_illust_id", of_optional_int max_illust_id);
             ("filter", filter)] ;;
  lift (parse_obj env IllustNewResult data).

Definition ILLUST_ugoira_metadata (id : Z) : M UgoiraMetadataResult :=
  data <- client_get (api V1_API "ugoira/metadata") [("illust_id", PInt id)] ;;
  lift (parse_ugoira env data).

(** *** Downloads *)

(** The URL of the single-page branch of both [download] methods. *)
Definition single_page_url (artwork : ArtWork) : string :=
  py_str
    (py_or
       (py_or (single_original (meta_single_page artwork))
              (original (image_urls artwork)))
       (large (image_urls artwork))).

(** The URL chosen for one page of the multi-page branch. *)
Definition meta_page_url (meta_page : MetaPage) : string :=
  py_str
    (py_or (original (page_image_urls meta_page))
           (large (page_image_urls meta_page))).

(** The location of the ugoira ZIP, of both [download_ugoira] methods. *)
Definition zip_location (zip_url : ImageUrl) : option string :=
  py_or (py_or (original zip_url) (large zip_url)) (medium zip_url).

(** [not xs] for a list. *)
Definition is_empty {A : Type} (xs : list A) : bool :=
  match xs with
  | [] => true
  | _ :: _ => false
  end.

Definition ILLUST_download (id : Z) (full : bool) (filter : PyVal)
    (output : option string) : M (list (option bytes)) :=
  detail <- ILLUST_detail id filter ;;
  let artwork := illust detail in
  is_ugoira <- lift (ArtWorkType.eq (type_ artwork)
                       (ArtWorkType.Member ArtWorkType.ugoira)) ;;
  if is_ugoira : bool then raise (ArtWorkTypeError use_download_ugoira)
  else if (negb full || is_empty (meta_pages artwork))%bool then
    data <- client_download (Some (single_page_url artwork)) output ;;
    ret [data]
  else
    for_append
      (fun meta_page => client_download (Some (meta_page_url meta_page)) output)
      (meta_pages artwork) [].

(** What [download_ugoira] returns, by the requested [type]. *)
Inductive Ugoira : Type :=
| AsZip (zip_file : ZipFile)
| AsFrames (frames : list bytes)
| AsIter (frames : list bytes)
| AsDict (zip : ZipFile) (frames : list bytes).

(** The part of [download_ugoira] after the download, which the two
    methods share line by line. *)
Definition unpack_ugoira (metadata : UgoiraMetadata) (data : option bytes)
    (type : string) : M (option Ugoira) :=
  match data with
  | None => ret None
  | Some data =>
      zip_file <- ZipFile_new data ;;
      if String.eqb type "zip" then ret (Some (AsZip zip_file))
      else
        frames <- for_append
                    (fun frame_info => ZipFile_read zip_file (file frame_info))
                    (frames metadata) [] ;;
        if String.eqb type "jpg" then ret (Some (AsFrames frames))
        else if String.eqb type "iter" then ret (Some (AsIter frames))
        else ret (Some (AsDict zip_file frames))
  end.

Definition ILLUST_download_ugoira (id : Z) (type : string) : M (option Ugoira) :=
  result <- ILLUST_ugoira_metadata id ;;
  let metadata := metadata result in
  let zip_url := zip_url metadata in
  data <- client_download (zip_location zip_url) None ;;
  unpack_ugoira metadata data type.

(** ** The methods of [ArtWork] that call the client *)

(** The single-page branch calls the transport without [output]. *)
Definition ArtWork_download (self : ArtWork) (full : bool)
    (output : option string) : M (list (option bytes)) :=
  if (negb full || is_empty (meta_pages self))%bool then
    data <- client_download (Some (single_page_url self)) None ;;
    ret [data]
  else
    for_append
      (fun meta_page => client_download (Some (meta_page_url meta_page)) output)
      (meta_pages self) [].

Definition ArtWork_ugoira_metadata (self : ArtWork) : M (option UgoiraMetadata) :=
  not_ugoira <- lift (ArtWorkType.ne (type_ self)
                        (ArtWorkType.Member ArtWorkType.ugoira)) ;;
  if not_ugoira : bool then ret None
  else
    result <- ILLUST_ugoira_metadata (art_id self) ;;
    ret (Some (metadata result)).

Definition ArtWork_download_ugoira (self : ArtWork) (type : string)
  : M (option Ugoira) :=
  not_ugoira <- lift (ArtWorkType.ne (type_ self)
                        (ArtWorkType.Member ArtWorkType.ugoira)) ;;
  if not_ugoira : bool then raise (ArtWorkTypeError use_download)
  else
    metadata <- ArtWork_ugoira_metadata self ;;
    match metadata with
    | None => raise AttributeError
    | Some metadata =>
        let zip_url := zip_url metadata in
        data <- client_download (zip_location zip_url) None ;;
        unpack_ugoira metadata data type
    end.

End Client.

(** ** The claims of the specification, as stated *)

(** The first present field of a list of optional fields. *)
Fixpoint first_present (fields : list (option string)) : option string :=
  match fields with
  | [] => None
  | Some u :: _ => Some u
  | None :: rest => first_present rest
  end.

(** The fallback chain in the spec's words: prefer original resolution,
    fall back to large, then medium. *)
Definition spec_fallback_chain (bundle : ImageUrl) : option string :=
  first_present [original bundle; large bundle; medium bundle].

(** A validated URL is never the empty string. *)
Definition valid_url (field : option string) : Prop := field <> Some "".

Definition valid_bundle (bundle : ImageUrl) : Prop :=
  valid_url (original bundle) /\ valid_url (large bundle) /\ valid_url (medium bundle).

(** The HTTP requests among the events of a call. *)
Definition is_request (e : Event) : bool :=
  match e with
  | Get _ _ => true
  | Download _ _ => true
  | _ => false
  end.

Definition is_get (e : Event) : bool :=
  match e with
  | Get _ _ => true
  | _ => false
  end.

Definition is_download (e : Event) : bool :=
  match e with
  | Download _ _ => true
  | _ => false
  end.

Definition is_zip_event (e : Event) : bool :=
  match e with
  | ZipFileInit _ => true
  | ZipFileRead _ => true
  | _ => false
  end.

Definition requests {A : Type} (m : M A) (h : History) : list Event :=
  filter is_request (issued m h).

(** "Exactly one HTTP request is issued per call", in the spec's words. *)
Definition single_request {A : Type} (m : M A) (h : History) : Prop :=
  List.length (requests m h) = 1%nat.

(** A tag name with its hyphens removed. *)
Definition without_hyphens (s : string) : string := str_replace "-"%char "" s.

(** A character that no case mapping produces from another character. *)
Definition caseless (d : ascii) : Prop :=
  forall c, (to_lower c = d <-> c = d) /\ (to_title c = d <-> c = d).

Fixpoint all_caseless (t : string) : Prop :=
  match t with
  | EmptyString => True
  | String d t' => caseless d /\ all_caseless t'
  end.

(** The same bundle with another medium variant. *)
Definition with_medium (bundle : ImageUrl) (m : option string) : ImageUrl :=
  {| square_medium := square_medium bundle; medium := m;
     large := large bundle; original := original bundle |}.

(** The same artwork with another bundle of image URLs. *)
Definition with_image_urls (self : ArtWork) (bundle : ImageUrl) : ArtWork :=
  {| art_id := art_id self; type_ := type_ self; image_urls := bundle;
     tags := tags self; sanity_level := sanity_level self;
     meta_single_page := meta_single_page self;
     meta_pages := meta_pages self |}.

(** The same artwork under another type. *)
Definition with_type (self : ArtWork) (t : ArtWorkType.t) : ArtWork :=
  {| art_id := art_id self; type_ := t; image_urls := image_urls self;
     tags := tags self; sanity_level := sanity_level self;
     meta_single_page := meta_single_page self;
     meta_pages := meta_pages self |}.

(** The number of images a call of [download] selects. *)
Definition selected (full : bool) (artwork : ArtWork) : nat :=
  if (negb full || is_empty (meta_pages artwork))%bool then 1%nat
  else List.length (meta_pages artwork).

(** The request of [ILLUST.ugoira_metadata]. *)
Definition metadata_request (id : Z) : Event :=
  Get (api V1_API "ugoira/metadata") [("illust_id", PInt id)].

(** The request of [ILLUST.detail]. *)
Definition detail_request (id : Z) (filter : PyVal) : Event :=
  Get (api V1_API "illust/detail") [("illust_id", PInt id); ("filter", filter)].

(** ** A concrete world, for running the model *)

Definition pximg (file : string) : option string :=
  Some ("https://i.pximg.net/" ++ file)%string.

Definition no_urls : ImageUrl :=
  {| square_medium := None; medium := None; large := None; original := None |}.

Definition medium_only : ImageUrl :=
  {| square_medium := None; medium := pximg "m.jpg"; large := None; original := None |}.

Definition all_sizes : ImageUrl :=
  {| square_medium := pximg "s.jpg"; medium := pximg "m.jpg";
     large := pximg "l.jpg"; original := pximg "o.jpg" |}.

Definition zip_urls : ImageUrl :=
  {| square_medium := None; medium := pximg "ugoira600x600.zip";
     large := None; original := None |}.

Definition r18_tag : Tag := {| name := "r-18"; translated_name := None |}.

Definition animation : ArtWork :=
  {| art_id := 7; type_ := ArtWorkType.ugoira; image_urls := all_sizes;
     tags := [r18_tag]; sanity_level := 6;
     meta_single_page := {| single_original := pximg "o.jpg" |};
     meta_pages := [] |}.

Definition picture : ArtWork :=
  {| art_id := 8; type_ := ArtWorkType.illust; image_urls := medium_only;
     tags := []; sanity_level := 2;
     meta_single_page := {| single_original := None |};
     meta_pages := [] |}.

Definition two_frames : UgoiraMetadata :=
  {| zip_url := zip_urls;
     frames := [ {| file := "000000.jpg"; delay := 60 |};
                 {| file := "000001.jpg"; delay := 90 |} ] |}.

Definition archive : bytes := [Byte.x50; Byte.x4b; Byte.x03; Byte.x04].

Definition frame0 : bytes := [Byte.xff; Byte.xd8; Byte.x00].
Definition frame1 : bytes := [Byte.xff; Byte.xd8; Byte.x01].

(** A server that knows the artworks 7 and 8 and an archive of two frames. *)
Definition world : Env :=
  {| http_get := fun _ _ params =>
       match params with
       | ("illust_id", PInt z) :: _ => Ok (JNum z)
       | _ => Ok JNull
       end;
     http_download := fun _ url _ =>
       match url with
       | Some u =>
           if String.eqb u "https://i.pximg.net/ugoira600x600.zip"
           then Ok (Some archive) else Ok (Some frame0)
       | None => Ok None
       end;
     parse_detail := fun data =>
       match data with
       | JNum 7 => Ok {| illust := animation |}
       | JNum 8 => Ok {| illust := picture |}
       | _ => Raise ValueError
       end;
     parse_ugoira := fun data =>
       match data with
       | JNum 7 => Ok {| metadata := two_frames |}
       | _ => Raise ValueError
       end;
     parse_obj := fun cls data =>
       Ok {| parsed_class := cls; parsed_body := data |};
     zip_init := fun _ => Ok tt;
     zip_read := fun _ member =>
       if String.eqb member "000000.jpg" then Ok frame0
       else if String.eqb member "000001.jpg" then Ok frame1
       else Raise (KeyError member);
     strftime := fun _ _ => "2020-01-01" |}.

(** A server whose downloads carry no data. *)
Definition silent_world : Env :=
  {| http_get := http_get world;
     http_download := fun _ _ _ => Ok None;
     parse_detail := parse_detail world;
     parse_ugoira := parse_ugoira world;
     parse_obj := parse_obj world;
     zip_init := zip_init world;
     zip_read := zip_read world;
     strftime := strftime world |}.

(** ** The rest of the artwork model *)

(** *** Further properties and methods of [ArtWork] *)

(** [str(n)] for an [int]: decimal digits, a minus sign for a negative. *)
Definition str_int (n : Z) : string := NilZero.string_of_int (Z.to_int n).

(** [ArtWork.link]; a [yarl.URL] is kept as its text. *)
Definition link (self : ArtWork) : string :=
  ("https://www.pixiv.net/artworks/" ++ str_int (art_id self) ++ "/")%string.

Section Yarl.

(** The class [URL] of the library [yarl] and its constructor from a text,
    [URL(text)]; the library normalises the text it is given. *)
Variable YarlURL : Type.
Variable URL_new : string -> YarlURL.

(** [ArtWork.all_image_urls]: the loop appends one [URL] object per page,
    built from the text [str(original or large)]. *)
Definition all_image_urls (self : ArtWork) : list YarlURL :=
  fold_left (fun result page => result ++ [URL_new (meta_page_url page)])
            (meta_pages self) [].

End Yarl.
Arguments all_image_urls {YarlURL} URL_new self.

(** The members of [SearchFilter], an enumeration of [_section/_base.py]. *)
Definition SearchFilter_ios : PyVal := PEnum "SearchFilter.ios".
Definition SearchFilter_android : PyVal := PEnum "SearchFilter.android".

(** [ArtWork.detail], [ArtWork.comments] and [ArtWork.related], for a given
    client. *)
Definition ArtWork_detail (env : Env) (self : ArtWork) (for_ios : bool)
  : M IllustDetailResult :=
  ILLUST_detail env (art_id self)
    (if for_ios then SearchFilter_ios else SearchFilter_android).

Definition ArtWork_comments (env : Env) (self : ArtWork) (offset : option Z)
  : M Parsed :=
  ILLUST_comments env (art_id self) offset.

Definition ArtWork_related (env : Env) (self : ArtWork) (for_ios : bool)
    (offset seed_id : option Z) : M Parsed :=
  ILLUST_related env (art_id self)
    (if for_ios then SearchFilter_ios else SearchFilter_android)
    offset (of_optional_int seed_id).

(** *** Auxiliary notions for stating properties *)

(** Reading an [int] back from its decimal text. *)
Definition int_of_str (s : string) : option Z :=
  option_map Z.of_int (NilZero.int_of_string s).

(** The texts a call of [download] passes to the transport as URLs, in the
    order it requests them: the single-page text, or one text
    [str(original or large)] per meta page. *)
Definition selected_urls (full : bool) (artwork : ArtWork) : list string :=
  if (negb full || is_empty (meta_pages artwork))%bool
  then [single_page_url artwork]
  else map meta_page_url (meta_pages artwork).

(** The parameter of a request under a given name. *)
Fixpoint param (name : string) (params : Params) : option PyVal :=
  match params with
  | [] => None
  | (key, v) :: rest => if String.eqb key name then Some v else param name rest
  end.

(** *** More concrete worlds *)

Definition page (file : string) : MetaPage :=
  {| page_image_urls :=
       {| square_medium := None; medium := None;
          large := pximg ("l_" ++ file); original := pximg file |} |}.

(** A manga of two pages. *)
Definition album : ArtWork :=
  {| art_id := 9; type_ := ArtWorkType.manga; image_urls := all_sizes;
     tags := []; sanity_level := 2;
     meta_single_page := {| single_original := None |};
     meta_pages := [page "p0.png"; page "p1.png"] |}.

(** [world], knowing the artwork 9 too. *)
Definition gallery : Env :=
  {| http_get := http_get world;
     http_download := http_download world;
     parse_detail := fun data =>
       match data with
       | JNum 9 => Ok {| illust := album |}
       | _ => parse_detail world data
       end;
     parse_ugoira := parse_ugoira world;
     parse_obj := parse_obj world;
     zip_init := zip_init world;
     zip_read := zip_read world;
     strftime := strftime world |}.

(** [world] with an archive that does not open. *)
Definition broken_archive : Env :=
  {| http_get := http_get world;
     http_download := http_download world;
     parse_detail := parse_detail world;
     parse_ugoira := parse_ugoira world;
     parse_obj := parse_obj world;
     zip_init := fun _ => Raise BadZipFile;
     zip_read := zip_read world;
     strftime := strftime world |}.

(** [world] with an archive that lacks the second frame. *)
Definition short_archive : Env :=
  {| http_get := http_get world;
     http_download := http_download world;
     parse_detail := parse_detail world;
     parse_ugoira := parse_ugoira world;
     parse_obj := parse_obj world;
     zip_init := zip_init world;
     zip_read := fun _ member =>
       if String.eqb member "000000.jpg" then Ok frame0
       else Raise (KeyError member);
     strftime := strftime world |}.

(** [world] with a transport that is down: every request raises. *)
Definition offline : Env :=
  {| http_get := fun _ _ _ => Raise (OtherError "ConnectError");
     http_download := fun _ _ _ => Raise (OtherError "ConnectError");
     parse_detail := parse_detail world;
     parse_ugoira := parse_ugoira world;
     parse_obj := parse_obj world;
     zip_init := zip_init world;
     zip_read := zip_read world;
     strftime := strftime world |}.

(** [world] with an image host that is down: downloads raise. *)
Definition no_image_host : Env :=
  {| http_get := http_get world;
     http_download := fun _ _ _ => Raise (OtherError "ConnectError");
     parse_detail := parse_detail world;
     parse_ugoira := parse_ugoira world;
     parse_obj := parse_obj world;
     zip_init := zip_init world;
     zip_read := zip_read world;
     strftime := strftime world |}.

(** * Properties *)

(** ** Derived properties of the schema layer *)

(** C7: [is_nsfw] is true if and only if [sanity_level] is strictly
    greater than 5. *)
Theorem is_nsfw_iff_sanity_level_above_5 (self : ArtWork) :
  is_nsfw self = true <-> sanity_level self > 5.
Proof.
  unfold is_nsfw.
  rewrite Z.gtb_lt.
  lia.
Qed.

Lemma py_index_0_cons {A : Type} (x : A) (xs : list A) :
  py_index (x :: xs) 0 = Ok x.
Proof. reflexivity. Qed.

Lemma py_index_0_nil {A : Type} : py_index (@nil A) 0 = Raise IndexError.
Proof. reflexivity. Qed.

(** C9: [is_r18] never fails.  On an empty tag list it is false, the guard
    keeps [tags[0]] from being evaluated; on a non-empty one it is the
    comparison of the first tag's name, title-cased and with the hyphens
    removed, with [R18]. *)
Theorem is_r18_guarded (self : ArtWork) :
  is_r18 self =
  Ok (match tags self with
      | [] => false
      | tag0 :: _ =>
          String.eqb (str_replace "-"%char "" (str_title (name tag0))) "R18"
      end).
Proof.
  unfold is_r18.
  destruct (tags self) as [|tag0 rest] eqn:Htags.
  - reflexivity.
  - rewrite py_index_0_cons.
    replace (Z.of_nat (List.length (tag0 :: rest)) >=? 1) with true.
    + reflexivity.
    + symmetry. apply Z.geb_le. simpl List.length. lia.
Qed.

(** *** Which names make [is_r18] true *)

Lemma caseless_hyphen : caseless "-"%char.
Proof.
  intro c. destruct c as [[] [] [] [] [] [] [] []];
    vm_compute; split; split; intro H; (reflexivity || discriminate H).
Qed.
Lemma caseless_1 : caseless "1"%char.
Proof.
  intro c. destruct c as [[] [] [] [] [] [] [] []];
    vm_compute; split; split; intro H; (reflexivity || discriminate H).
Qed.
Lemma caseless_8 : caseless "8"%char.
Proof.
  intro c. destruct c as [[] [] [] [] [] [] [] []];
    vm_compute; split; split; intro H; (reflexivity || discriminate H).
Qed.
Lemma to_title_R c : to_title c = "R"%char <-> (c = "R"%char \/ c = "r"%char).
Proof.
  destruct c as [[] [] [] [] [] [] [] []];
    vm_compute; split; intro H;
    try (destruct H as [H|H]); try discriminate H; auto.
Qed.

Lemma without_hyphens_hyphen s :
  without_hyphens (String "-" s) = without_hyphens s.
Proof. reflexivity. Qed.

Lemma without_hyphens_other c s :
  c <> "-"%char -> without_hyphens (String c s) = String c (without_hyphens s).
Proof.
  intro Hc. unfold without_hyphens. simpl.
  destruct (Ascii.eqb_spec c "-"); [contradiction|reflexivity].
Qed.

Lemma mapped_hyphen (p : bool) c :
  (if p then to_lower c else to_title c) = "-"%char <-> c = "-"%char.
Proof. destruct p; apply caseless_hyphen. Qed.

Lemma title_caseless (t : string) :
  all_caseless t ->
  forall s p, without_hyphens (title_from p s) = t <-> without_hyphens s = t.
Proof.
  intros Ht s. revert t Ht.
  induction s as [|c rest IH]; intros t Ht p; [reflexivity|].
  simpl title_from.
  destruct (Ascii.eqb_spec c "-") as [->|Hc].
  - replace (if p then to_lower "-" else to_title "-") with "-"%char
      by now destruct p.
    rewrite !without_hyphens_hyphen. now apply IH.
  - rewrite (without_hyphens_other c) by assumption.
    rewrite without_hyphens_other by now rewrite mapped_hyphen.
    destruct t as [|d t']; [split; discriminate|].
    destruct Ht as [Hd Ht'].
    destruct (Hd c) as [Hlower Htitle].
    split; intros [= Hhead Htail]; f_equal.
    + destruct p; [apply Hlower|apply Htitle]; exact Hhead.
    + now apply (IH t' Ht' (is_cased c)).
    + destruct p; [apply Hlower|apply Htitle]; exact Hhead.
    + now apply (IH t' Ht' (is_cased c)).
Qed.

(** Title-casing and removing the hyphens gives [R18] exactly for the names
    that read [R18] or [r18] once their hyphens are removed. *)
Lemma title_R18 (s : string) :
  without_hyphens (str_title s) = "R18"
  <-> without_hyphens s = "R18" \/ without_hyphens s = "r18".
Proof.
  assert (H18 : all_caseless "18")
    by (simpl; auto using caseless_1, caseless_8).
  unfold str_title.
  induction s as [|c rest IH]; [simpl; split; [discriminate|intros [|]; discriminate]|].
  simpl title_from.
  destruct (Ascii.eqb_spec c "-") as [->|Hc].
  - change (is_cased "-") with false. change (to_title "-") with "-"%char.
    now rewrite !without_hyphens_hyphen.
  - rewrite (without_hyphens_other c) by assumption.
    rewrite without_hyphens_other by now rewrite (mapped_hyphen false).
    split.
    + intros [= Hhead Htail].
      apply to_title_R in Hhead. apply (title_caseless "18" H18) in Htail.
      rewrite Htail. destruct Hhead as [->| ->]; auto.
    + intros [[= -> Htail]|[= -> Htail]];
        (f_equal; try reflexivity; now apply (title_caseless "18" H18)).
Qed.

(** [is_r18] in terms of the tag name alone. *)
Lemma is_r18_true (self : ArtWork) :
  is_r18 self = Ok true
  <-> exists tag0 rest,
        tags self = tag0 :: rest
        /\ (without_hyphens (name tag0) = "R18"
            \/ without_hyphens (name tag0) = "r18").
Proof.
  unfold is_r18. destruct (tags self) as [|tag0 rest].
  - simpl. split; [discriminate|]. intros (t & r & H & _). discriminate H.
  - change (py_index (tag0 :: rest) 0) with (Ok tag0).
    replace (Z.of_nat (List.length (tag0 :: rest)) >=? 1) with true
      by (symmetry; apply Z.geb_le; simpl List.length; lia).
    fold (without_hyphens (str_title (name tag0))).
    split.
    + intros [= H]. apply String.eqb_eq, title_R18 in H. eauto.
    + intros (t & r & [= <- <-] & H). apply title_R18, String.eqb_eq in H.
      now rewrite H.
Qed.

(** ** Equality of [ArtWorkType] *)

Lemma value_injective (t u : ArtWorkType.t) :
  ArtWorkType.value t = ArtWorkType.value u -> t = u.
Proof.
  destruct t, u; simpl; intro H; try reflexivity; discriminate H.
Qed.



(** ** Which URL a download selects *)

Lemma truthy_valid (field : option string) :
  valid_url field ->
  truthy field = match field with Some _ => true | None => false end.
Proof.
  intro Hvalid. destruct field as [u|]; [|reflexivity].
  unfold truthy. destruct (String.eqb_spec u "") as [->|_]; [|reflexivity].
  now contradiction Hvalid.
Qed.

Lemma py_or_None (b : option string) : py_or None b = b.
Proof. reflexivity. Qed.

Lemma py_or_Some (u : string) (b : option string) :
  valid_url (Some u) -> py_or (Some u) b = Some u.
Proof.
  intro Hvalid. unfold py_or. now rewrite (truthy_valid _ Hvalid).
Qed.

(** Evaluate a chain of [or] over fields known to be valid. *)
Ltac eval_or :=
  repeat match goal with
         | |- context [py_or None _] => rewrite py_or_None
         | H : valid_url (Some ?u) |- context [py_or (Some ?u) _] =>
             rewrite (py_or_Some u _ H)
         end.

Lemma valid_pximg (file : string) : valid_url (pximg file).
Proof. unfold valid_url, pximg. simpl. discriminate. Qed.

Lemma valid_None : valid_url None.
Proof. unfold valid_url. discriminate. Qed.

Create HintDb urls.
#[local] Hint Resolve valid_pximg valid_None : urls.

Lemma valid_medium_only : valid_bundle medium_only.
Proof. unfold valid_bundle; simpl; auto with urls. Qed.

(** C3, as stated, fails on the static-image path: for a bundle that holds
    only the medium variant the chain of the spec selects that variant, the
    single-page branch of [download] does not. *)
Lemma static_path_ignores_medium :
  valid_bundle (image_urls picture) /\
  spec_fallback_chain (image_urls picture) = Some "https://i.pximg.net/m.jpg" /\
  single_page_url picture <> "https://i.pximg.net/m.jpg" /\
  meta_page_url {| page_image_urls := image_urls picture |}
    <> "https://i.pximg.net/m.jpg".
Proof.
  split; [exact valid_medium_only|].
  split; [reflexivity|].
  split; vm_compute; discriminate.
Qed.

(** C3, amended: the location of the ugoira ZIP follows the chain original,
    large, medium.  The static-image paths never select the medium variant:
    the URL of the single-page branch is the first present of the original
    of [meta_single_page], the original of [image_urls] and the large
    variant of [image_urls]; the URL of a page of the multi-page branch is
    the first present of the page's original and large variant.  When none
    of these is present the URL is the text of [None], whatever the medium
    variant holds. *)
Theorem download_url_selection
    (artwork : ArtWork) (meta_page : MetaPage) (zip_url : ImageUrl) :
  valid_url (single_original (meta_single_page artwork)) ->
  valid_bundle (image_urls artwork) ->
  valid_bundle (page_image_urls meta_page) ->
  valid_bundle zip_url ->
  zip_location zip_url = spec_fallback_chain zip_url /\
  single_page_url artwork
  = py_str (first_present [single_original (meta_single_page artwork);
                           original (image_urls artwork);
                           large (image_urls artwork)]) /\
  meta_page_url meta_page
  = py_str (first_present [original (page_image_urls meta_page);
                           large (page_image_urls meta_page)]) /\
  (forall m,
      single_page_url (with_image_urls artwork (with_medium (image_urls artwork) m))
      = single_page_url artwork) /\
  (forall m,
      meta_page_url {| page_image_urls := with_medium (page_image_urls meta_page) m |}
      = meta_page_url meta_page).
Proof.
  intros Hsingle (Ho & Hl & _) (Hpo & Hpl & _) (Hzo & Hzl & Hzm).
  split; [|split; [|split; [|split]]].
  - unfold zip_location, spec_fallback_chain.
    destruct (original zip_url), (large zip_url), (medium zip_url);
      eval_or; reflexivity.
  - unfold single_page_url.
    destruct (single_original (meta_single_page artwork)),
      (original (image_urls artwork)), (large (image_urls artwork));
      eval_or; reflexivity.
  - unfold meta_page_url.
    destruct (original (page_image_urls meta_page)),
      (large (page_image_urls meta_page));
      eval_or; reflexivity.
  - reflexivity.
  - reflexivity.
Qed.

Lemma download_url_selection_witness :
  zip_location zip_urls = spec_fallback_chain zip_urls /\
  single_page_url picture = "None" /\
  meta_page_url {| page_image_urls := medium_only |} = "None" /\
  single_page_url animation = "https://i.pximg.net/o.jpg" /\
  meta_page_url {| page_image_urls := all_sizes |} = "https://i.pximg.net/o.jpg".
Proof.
  destruct (download_url_selection picture {| page_image_urls := medium_only |}
              zip_urls) as (Hzip & Hsingle & Hpage & _).
  - apply valid_None.
  - exact valid_medium_only.
  - exact valid_medium_only.
  - unfold valid_bundle; simpl; auto with urls.
  - destruct (download_url_selection animation {| page_image_urls := all_sizes |}
                zip_urls) as (_ & Hsingle' & Hpage' & _).
    + apply valid_pximg.
    + unfold valid_bundle; simpl; auto with urls.
    + unfold valid_bundle; simpl; auto with urls.
    + unfold valid_bundle; simpl; auto with urls.
    + split; [exact Hzip|].
      split; [exact Hsingle|]. split; [exact Hpage|].
      split; [exact Hsingle'|exact Hpage'].
Defined.

(** ** Running client calls *)

Lemma skipn_length_app {A : Type} (h evs : list A) :
  skipn (List.length h) (h ++ evs) = evs.
Proof.
  rewrite skipn_app, skipn_all, Nat.sub_diag. reflexivity.
Qed.

Lemma issued_of_run {A : Type} (m : M A) (h : History) evs r :
  m h = (h ++ evs, r) -> issued m h = evs.
Proof.
  intro Hrun. unfold issued. rewrite Hrun. apply skipn_length_app.
Qed.

Lemma outcome_of_run {A : Type} (m : M A) (h h' : History) r :
  m h = (h', r) -> outcome m h = r.
Proof.
  intro Hrun. unfold outcome. now rewrite Hrun.
Qed.

Lemma bind_Ok {A B : Type} (m : M A) (k : A -> M B) h h' a :
  m h = (h', Ok a) -> bind m k h = k a h'.
Proof.
  intro Hrun. unfold bind. now rewrite Hrun.
Qed.

Lemma bind_Raise {A B : Type} (m : M A) (k : A -> M B) h h' e :
  m h = (h', Raise e) -> bind m k h = (h', Raise e).
Proof.
  intro Hrun. unfold bind. now rewrite Hrun.
Qed.

Section Runs.

Variable env : Env.

(** An accessor that sends one GET and parses the body adds exactly that
    GET to the history, whatever the transport and the parser answer. *)
Lemma get_then_parse {A : Type} url params (parse : JSON -> Result A) h :
  exists r,
    bind (client_get env url params) (fun data => lift (parse data)) h
    = (h ++ [Get url params], r).
Proof.
  unfold bind, client_get, lift.
  destruct (http_get env h url params); eexists; reflexivity.
Qed.

Lemma ILLUST_ugoira_metadata_run id h :
  ILLUST_ugoira_metadata env id h =
  (h ++ [Get (api V1_API "ugoira/metadata") [("illust_id", PInt id)]],
   match http_get env h (api V1_API "ugoira/metadata") [("illust_id", PInt id)] with
   | Ok data => parse_ugoira env data
   | Raise e => Raise e
   end).
Proof.
  unfold ILLUST_ugoira_metadata, bind, client_get, lift.
  destruct (http_get env h _ _); reflexivity.
Qed.

Lemma ILLUST_detail_run id filter h :
  ILLUST_detail env id filter h =
  (h ++ [Get (api V1_API "illust/detail")
           [("illust_id", PInt id); ("filter", filter)]],
   match http_get env h (api V1_API "illust/detail")
           [("illust_id", PInt id); ("filter", filter)] with
   | Ok data => parse_detail env data
   | Raise e => Raise e
   end).
Proof.
  unfold ILLUST_detail, Section_detail, bind, client_get, lift.
  destruct (http_get env h _ _); reflexivity.
Qed.

(** A loop whose body issues one event per element: the events are those
    of a prefix of the elements; of all of them when the loop returns. *)
Lemma for_append_events {A B : Type} (body : A -> M B) (ev : A -> Event) :
  (forall x h, fst (body x h) = h ++ [ev x]) ->
  forall (xs : list A) (result : list B) h,
  exists k r,
    for_append body xs result h = (h ++ map ev (firstn k xs), r)
    /\ (k <= List.length xs)%nat
    /\ (forall v, r = Ok v -> k = List.length xs).
Proof.
  intros Hbody xs.
  induction xs as [|x rest IH]; intros result h.
  - exists 0%nat, (Ok result). simpl. rewrite app_nil_r. auto.
  - simpl for_append. unfold bind at 1.
    specialize (Hbody x h).
    destruct (body x h) as [h' [b|e]]; simpl in Hbody; subst h'.
    + destruct (IH (result ++ [b]) (h ++ [ev x])) as (k & r & Hrun & Hk & Hall).
      exists (S k), r. rewrite Hrun. simpl. rewrite <- app_assoc. simpl.
      repeat split; [lia|]. intros v Hv. f_equal. eauto.
    + exists 1%nat, (Raise e). simpl.
      repeat split; [lia|]. discriminate.
Qed.

Lemma for_append_downloads {A : Type} (url : A -> string) output (xs : list A) :
  forall (result : list (option bytes)) h,
  exists k r,
    for_append (fun x => client_download env (Some (url x)) output) xs result h
    = (h ++ map (fun x => Download (Some (url x)) output) (firstn k xs), r)
    /\ (k <= List.length xs)%nat
    /\ (forall v, r = Ok v -> k = List.length xs).
Proof.
  apply (for_append_events
           (fun x => client_download env (Some (url x)) output)
           (fun x => Download (Some (url x)) output)).
  reflexivity.
Qed.

Lemma for_append_reads zip_file (frame_infos : list Frame) :
  forall (result : list bytes) h,
  exists k r,
    for_append (fun frame_info => ZipFile_read env zip_file (file frame_info))
               frame_infos result h
    = (h ++ map (fun frame_info => ZipFileRead (file frame_info))
                (firstn k frame_infos), r)
    /\ (k <= List.length frame_infos)%nat
    /\ (forall v, r = Ok v -> k = List.length frame_infos).
Proof.
  apply (for_append_events
           (fun frame_info => ZipFile_read env zip_file (file frame_info))
           (fun frame_info => ZipFileRead (file frame_info))).
  reflexivity.
Qed.

(** The frame loop, when every frame names a member of the archive. *)
Lemma for_append_frames zip_file (frame_infos : list Frame) payloads :
  Forall2 (fun frame_info payload =>
             zip_read env (zip_payload zip_file) (file frame_info) = Ok payload)
          frame_infos payloads ->
  forall result h,
    for_append (fun frame_info => ZipFile_read env zip_file (file frame_info))
               frame_infos result h
    = (h ++ map (fun frame_info => ZipFileRead (file frame_info)) frame_infos,
       Ok (result ++ payloads)).
Proof.
  induction 1 as [|frame_info payload rest payloads' Hread _ IH];
    intros result h; simpl.
  - now rewrite !app_nil_r.
  - unfold bind at 1. unfold ZipFile_read at 1. rewrite Hread.
    rewrite IH, <- !app_assoc. reflexivity.
Qed.

(** Every frame names a member: the payloads exist, one per frame. *)
Lemma members_payloads data (frame_infos : list Frame) :
  (forall frame_info, In frame_info frame_infos ->
      exists payload, zip_read env data (file frame_info) = Ok payload) ->
  exists payloads,
    Forall2 (fun frame_info payload =>
               zip_read env data (file frame_info) = Ok payload)
            frame_infos payloads.
Proof.
  induction frame_infos as [|frame_info rest IH]; intro Hall.
  - exists []. constructor.
  - destruct (Hall frame_info (or_introl eq_refl)) as [payload Hread].
    destruct IH as [payloads Hrest].
    + intros f Hf. apply Hall. now right.
    + exists (payload :: payloads). now constructor.
Qed.

Lemma ILLUST_ugoira_metadata_Ok id h result :
  outcome (ILLUST_ugoira_metadata env id) h = Ok result ->
  ILLUST_ugoira_metadata env id h = (h ++ [metadata_request id], Ok result).
Proof.
  unfold outcome. rewrite ILLUST_ugoira_metadata_run. simpl.
  now intros ->.
Qed.

Lemma unpack_ugoira_None metadata type h :
  unpack_ugoira env metadata None type h = (h, Ok None).
Proof. reflexivity. Qed.

Lemma unpack_ugoira_zip metadata data h :
  zip_init env data = Ok tt ->
  unpack_ugoira env metadata (Some data) "zip" h
  = (h ++ [ZipFileInit data], Ok (Some (AsZip {| zip_payload := data |}))).
Proof.
  intro Hinit. unfold unpack_ugoira, bind, ZipFile_new. now rewrite Hinit.
Qed.

Lemma unpack_ugoira_frames metadata data type payloads h :
  zip_init env data = Ok tt ->
  Forall2 (fun frame_info payload =>
             zip_read env data (file frame_info) = Ok payload)
          (frames metadata) payloads ->
  String.eqb type "zip" = false ->
  unpack_ugoira env metadata (Some data) type h
  = (h ++ ZipFileInit data
       :: map (fun frame_info => ZipFileRead (file frame_info)) (frames metadata),
     Ok (Some (if String.eqb type "jpg" then AsFrames payloads
               else if String.eqb type "iter" then AsIter payloads
               else AsDict {| zip_payload := data |} payloads))).
Proof.
  intros Hinit Hreads Hzip.
  unfold unpack_ugoira. unfold bind at 1. unfold ZipFile_new.
  rewrite Hinit, Hzip. unfold bind.
  rewrite (for_append_frames {| zip_payload := data |} _ payloads Hreads).
  simpl app. rewrite <- app_assoc. simpl.
  destruct (String.eqb type "jpg"); [reflexivity|].
  destruct (String.eqb type "iter"); reflexivity.
Qed.

(** After the metadata arrived, [ILLUST.download_ugoira] is one download
    followed by the unpacking. *)
Lemma ILLUST_download_ugoira_run id type h result :
  outcome (ILLUST_ugoira_metadata env id) h = Ok result ->
  ILLUST_download_ugoira env id type h =
  bind (client_download env (zip_location (zip_url (metadata result))) None)
       (fun data => unpack_ugoira env (metadata result) data type)
       (h ++ [metadata_request id]).
Proof.
  intro Hmeta. unfold ILLUST_download_ugoira.
  now rewrite (bind_Ok _ _ _ _ _ (ILLUST_ugoira_metadata_Ok _ _ _ Hmeta)).
Qed.

(** On an artwork whose type is ugoira, the method of the model does what
    the method of the section does on its id. *)
Lemma ArtWork_download_ugoira_as_ILLUST self type h :
  type_ self = ArtWorkType.ugoira ->
  ArtWork_download_ugoira env self type h
  = ILLUST_download_ugoira env (art_id self) type h.
Proof.
  intro Htype.
  unfold ArtWork_download_ugoira, ArtWork_ugoira_metadata, ILLUST_download_ugoira.
  rewrite Htype. unfold bind, lift.
  change (ArtWorkType.ne ArtWorkType.ugoira (ArtWorkType.Member ArtWorkType.ugoira))
    with (@Ok bool false).
  cbv iota beta. rewrite ILLUST_ugoira_metadata_run.
  destruct (http_get env h _ _) as [data|e]; [|reflexivity].
  destruct (parse_ugoira env data); reflexivity.
Qed.

End Runs.

(** ** Unpacking an ugoira *)

(** C2: once the manifest arrived and the download yielded a ZIP payload
    that opens and holds a member for every frame entry, [download_ugoira]
    with type [jpg] returns one payload per frame entry, the content of the
    member named by the entry's file name, in the order of the manifest;
    with type [all] the same list together with the [ZipFile]; with type
    [zip] the [ZipFile] alone, and no member is read.  The method of
    [ArtWork] does the same on an artwork of type ugoira. *)
Theorem download_ugoira_frames_in_manifest_order
    (env : Env) (h : History) (id : Z) (result : UgoiraMetadataResult)
    (data : bytes) :
  outcome (ILLUST_ugoira_metadata env id) h = Ok result ->
  http_download env (h ++ [metadata_request id])
    (zip_location (zip_url (metadata result))) None = Ok (Some data) ->
  zip_init env data = Ok tt ->
  (forall frame_info, In frame_info (frames (metadata result)) ->
      exists payload, zip_read env data (file frame_info) = Ok payload) ->
  exists payloads,
    Forall2 (fun frame_info payload =>
               zip_read env data (file frame_info) = Ok payload)
            (frames (metadata result)) payloads /\
    outcome (ILLUST_download_ugoira env id "jpg") h
      = Ok (Some (AsFrames payloads)) /\
    outcome (ILLUST_download_ugoira env id "all") h
      = Ok (Some (AsDict {| zip_payload := data |} payloads)) /\
    ILLUST_download_ugoira env id "zip" h
      = (h ++ [metadata_request id;
               Download (zip_location (zip_url (metadata result))) None;
               ZipFileInit data],
         Ok (Some (AsZip {| zip_payload := data |}))) /\
    (forall self type,
        art_id self = id -> type_ self = ArtWorkType.ugoira ->
        ArtWork_download_ugoira env self type h
        = ILLUST_download_ugoira env id type h).
Proof.
  intros Hmeta Hdata Hinit Hmembers.
  destruct (members_payloads env data _ Hmembers) as [payloads Hreads].
  exists payloads. split; [exact Hreads|].
  assert (Hrun : forall type,
             ILLUST_download_ugoira env id type h
             = unpack_ugoira env (metadata result) (Some data) type
                 ((h ++ [metadata_request id])
                    ++ [Download (zip_location (zip_url (metadata result))) None])).
  { intro type. rewrite (ILLUST_download_ugoira_run env id type h result Hmeta).
    unfold bind, client_download. now rewrite Hdata. }
  repeat split.
  - unfold outcome. rewrite Hrun.
    now rewrite (unpack_ugoira_frames env _ data "jpg" payloads _ Hinit Hreads).
  - unfold outcome. rewrite Hrun.
    now rewrite (unpack_ugoira_frames env _ data "all" payloads _ Hinit Hreads).
  - rewrite Hrun, (unpack_ugoira_zip env _ data _ Hinit).
    now rewrite <- !app_assoc.
  - intros self type <- Htype.
    now apply ArtWork_download_ugoira_as_ILLUST.
Qed.

Lemma download_ugoira_frames_in_manifest_order_witness :
  exists payloads,
    Forall2 (fun frame_info payload =>
               zip_read world archive (file frame_info) = Ok payload)
            (frames two_frames) payloads /\
    outcome (ILLUST_download_ugoira world 7 "jpg") [] = Ok (Some (AsFrames payloads)).
Proof.
  destruct (download_ugoira_frames_in_manifest_order world [] 7
              {| metadata := two_frames |} archive)
    as (payloads & Hreads & Hjpg & _).
  - reflexivity.
  - reflexivity.
  - reflexivity.
  - intros frame_info [<-|[<-|[]]]; eexists; reflexivity.
  - exists payloads. split; assumption.
Defined.

(** C8: when the transport yields no data for the ZIP payload,
    [download_ugoira] returns [None] for every requested type; it does not
    raise, and neither opens the ZIP nor reads a frame.  The method of
    [ArtWork] does the same on an artwork of type ugoira. *)
Theorem download_ugoira_without_data
    (env : Env) (h : History) (id : Z) (result : UgoiraMetadataResult)
    (type : string) :
  outcome (ILLUST_ugoira_metadata env id) h = Ok result ->
  http_download env (h ++ [metadata_request id])
    (zip_location (zip_url (metadata result))) None = Ok None ->
  ILLUST_download_ugoira env id type h
    = (h ++ [metadata_request id;
             Download (zip_location (zip_url (metadata result))) None],
       Ok None) /\
  filter is_zip_event (issued (ILLUST_download_ugoira env id type) h) = [] /\
  (forall self,
      art_id self = id -> type_ self = ArtWorkType.ugoira ->
      ArtWork_download_ugoira env self type h
      = (h ++ [metadata_request id;
               Download (zip_location (zip_url (metadata result))) None],
         Ok None)).
Proof.
  intros Hmeta Hdata.
  assert (Hrun : ILLUST_download_ugoira env id type h
                 = (h ++ [metadata_request id;
                          Download (zip_location (zip_url (metadata result))) None],
                    Ok None)).
  { rewrite (ILLUST_download_ugoira_run env id type h result Hmeta).
    unfold bind, client_download. rewrite Hdata, unpack_ugoira_None.
    now rewrite <- app_assoc. }
  repeat split.
  - exact Hrun.
  - now rewrite (issued_of_run _ _ _ _ Hrun).
  - intros self <- Htype.
    now rewrite ArtWork_download_ugoira_as_ILLUST.
Qed.

Lemma download_ugoira_without_data_witness :
  ILLUST_download_ugoira silent_world 7 "jpg" []
  = ([metadata_request 7; Download (zip_location zip_urls) None], Ok None).
Proof.
  apply (download_ugoira_without_data silent_world [] 7
           {| metadata := two_frames |} "jpg"); reflexivity.
Defined.

(** ** The requests of a call *)

Lemma zip_events_are_not_requests (evs : list Event) :
  Forall (fun e => is_zip_event e = true) evs ->
  filter is_request evs = [] /\ filter is_get evs = [] /\ filter is_download evs = [].
Proof.
  induction 1 as [|e evs He _ (IH1 & IH2 & IH3)]; [auto|].
  destruct e; try discriminate He; simpl; auto.
Qed.

Lemma reads_are_zip_events (frame_infos : list Frame) :
  Forall (fun e => is_zip_event e = true)
         (map (fun frame_info => ZipFileRead (file frame_info)) frame_infos).
Proof.
  induction frame_infos; simpl; constructor; auto.
Qed.

Section Requests.

Variable env : Env.

(** Unpacking issues no request: only events of the archive. *)
Lemma unpack_ugoira_events metadata data type h :
  exists evs r,
    unpack_ugoira env metadata data type h = (h ++ evs, r)
    /\ Forall (fun e => is_zip_event e = true) evs.
Proof.
  destruct data as [data|].
  - unfold unpack_ugoira. unfold bind at 1. unfold ZipFile_new.
    destruct (zip_init env data) as [[]|e].
    + destruct (String.eqb type "zip").
      * exists [ZipFileInit data]. eexists. split; [reflexivity|].
        repeat constructor.
      * unfold bind.
        destruct (for_append_reads env {| zip_payload := data |}
                    (frames metadata) [] (h ++ [ZipFileInit data]))
          as (k & r & Hrun & _).
        rewrite Hrun. rewrite <- app_assoc. simpl app.
        eexists. exists (match r with
                         | Ok a =>
                             Ok (Some (if String.eqb type "jpg" then AsFrames a
                                       else if String.eqb type "iter" then AsIter a
                                       else AsDict {| zip_payload := data |} a))
                         | Raise e => Raise e
                         end).
        split.
        -- destruct r; [|reflexivity].
           destruct (String.eqb type "jpg"); [reflexivity|].
           destruct (String.eqb type "iter"); reflexivity.
        -- constructor; [reflexivity|apply reads_are_zip_events].
    + exists [ZipFileInit data]. eexists. split; [reflexivity|].
      repeat constructor.
  - exists []. eexists. rewrite app_nil_r. split; [reflexivity|constructor].
Qed.

(** [ILLUST.download_ugoira]: the manifest request, then at most one
    download, then events of the archive only. *)
Lemma ILLUST_download_ugoira_events id type h :
  exists evs r,
    ILLUST_download_ugoira env id type h = (h ++ metadata_request id :: evs, r)
    /\ filter is_get evs = []
    /\ (List.length (filter is_request evs) <= 1)%nat.
Proof.
  unfold ILLUST_download_ugoira. unfold bind at 1.
  rewrite ILLUST_ugoira_metadata_run.
  destruct (match http_get env h _ _ with Ok d => _ | Raise e => _ end)
    as [result|e].
  - unfold bind, client_download.
    destruct (http_download env _ _ None) as [data|e].
    + destruct (unpack_ugoira_events (metadata result) data type
                  ((h ++ [metadata_request id])
                     ++ [Download (zip_location (zip_url (metadata result))) None]))
        as (evs & r & Hrun & Hzip).
      destruct (zip_events_are_not_requests evs Hzip) as (Hreq & Hget & _).
      unfold metadata_request in *. rewrite Hrun, <- !app_assoc. simpl app.
      eexists. exists r. split; [reflexivity|].
      simpl. rewrite Hget, Hreq. auto.
    + rewrite <- app_assoc. simpl app.
      eexists. eexists. split; [reflexivity|]. simpl. auto.
  - exists []. eexists. split; [reflexivity|]. simpl. auto.
Qed.

(** [ILLUST.download]: the detail request, then downloads only, each with
    the caller's [output]; at most one per selected image, and exactly one
    per selected image when the call returns. *)
Lemma ILLUST_download_events id full filter output h :
  exists evs r,
    ILLUST_download env id full filter output h
    = (h ++ detail_request id filter :: evs, r)
    /\ Forall (fun e => exists u, e = Download (Some u) output) evs
    /\ (forall detail,
          outcome (ILLUST_detail env id filter) h = Ok detail ->
          (List.length evs <= selected full (illust detail))%nat
          /\ (forall v, r = Ok v ->
                  List.length evs = selected full (illust detail))).
Proof.
  unfold ILLUST_download. unfold bind at 1. unfold outcome.
  rewrite ILLUST_detail_run. simpl snd.
  destruct (match http_get env h _ _ with Ok d => _ | Raise e => _ end)
    as [detail|e].
  - unfold bind at 1, lift. simpl ArtWorkType.eq.
    destruct (String.eqb (ArtWorkType.value (type_ (illust detail))) "ugoira").
    + exists []. eexists. split; [reflexivity|]. split; [constructor|].
      intros d [= <-]. split; [simpl; lia|]. discriminate.
    + unfold selected.
      destruct (negb full || is_empty (meta_pages (illust detail)))%bool eqn:Hsel.
      * unfold bind, client_download.
        destruct (http_download env _ _ output) as [data|e];
          (exists [Download (Some (single_page_url (illust detail))) output];
           eexists; split; [rewrite <- app_assoc; reflexivity|];
           split; [repeat constructor; eauto|];
           intros d [= <-]; rewrite Hsel; simpl; auto).
      * destruct (for_append_downloads env meta_page_url output
                    (meta_pages (illust detail)) []
                    (h ++ [detail_request id filter]))
          as (k & r & Hrun & Hk & Hall).
        unfold detail_request in *. rewrite Hrun, <- app_assoc. simpl app.
        eexists. exists r. split; [reflexivity|]. split.
        -- apply Forall_forall. intros e He.
           apply in_map_iff in He as (meta_page & <- & _). eauto.
        -- intros d [= <-]. rewrite Hsel, length_map, length_firstn.
           split; [lia|]. intros v Hv. rewrite (Hall v Hv). lia.
  - exists []. eexists. split; [reflexivity|]. split; [constructor|].
    discriminate.
Qed.

Lemma downloads_are_requests output (evs : list Event) :
  Forall (fun e => exists u, e = Download (Some u) output) evs ->
  filter is_request evs = evs /\ filter is_get evs = []
  /\ filter is_download evs = evs.
Proof.
  induction 1 as [|e evs [u ->] _ (IH1 & IH2 & IH3)]; [auto|].
  simpl. rewrite IH1, IH2, IH3. auto.
Qed.

End Requests.

Lemma single_request_get_then_parse {A : Type} (env : Env) url params
    (parse : JSON -> Result A) h :
  single_request
    (bind (client_get env url params) (fun data => lift (parse data))) h.
Proof.
  destruct (get_then_parse env url params parse h) as [r Hrun].
  unfold single_request, requests.
  now rewrite (issued_of_run _ _ _ _ Hrun).
Qed.

(** C6, as stated, fails: one call of [download_ugoira] issues two requests,
    the manifest request and then the download of the ZIP. *)
Lemma download_ugoira_issues_two_requests :
  requests (ILLUST_download_ugoira world 7 "zip") []
  = [metadata_request 7; Download (pximg "ugoira600x600.zip") None]
  /\ ~ single_request (ILLUST_download_ugoira world 7 "zip") [].
Proof.
  split; [reflexivity|].
  unfold single_request. vm_compute. discriminate.
Qed.

(** C6, amended: every call issues exactly one GET against the API.  For
    [follow], [search], [detail], [comments], [related], [recommended],
    [new_illusts] and [ugoira_metadata] that is the only request.
    [download_ugoira] and [download] are two-step: after the GET
    [download_ugoira] issues the download of the ZIP once the manifest
    arrived, and [download] issues at most one download per selected
    image. *)
Theorem requests_per_call (env : Env) (h : History) :
  (forall offset, single_request (ILLUST_follow env offset) h) /\
  (forall word sort target duration filter offset min_bookmarks max_bookmarks
          start_date end_date,
      single_request
        (ILLUST_search env word sort target duration filter offset
           min_bookmarks max_bookmarks start_date end_date) h) /\
  (forall id filter, single_request (ILLUST_detail env id filter) h) /\
  (forall id offset, single_request (ILLUST_comments env id offset) h) /\
  (forall id filter offset seed_ids,
      single_request (ILLUST_related env id filter offset seed_ids) h) /\
  (forall with_auth type include_ranking_label include_ranking_illusts offset
          filter max_bookmark_id_for_recommend min_bookmark_id_for_recent_illust
          bookmark_illust_ids include_privacy_policy viewed,
      single_request
        (ILLUST_recommended env with_auth type include_ranking_label
           include_ranking_illusts offset filter max_bookmark_id_for_recommend
           min_bookmark_id_for_recent_illust bookmark_illust_ids
           include_privacy_policy viewed) h) /\
  (forall type filter max_illust_id,
      single_request (ILLUST_new_illusts env type filter max_illust_id) h) /\
  (forall id, single_request (ILLUST_ugoira_metadata env id) h) /\
  (forall id type,
      List.filter is_get (issued (ILLUST_download_ugoira env id type) h)
      = [metadata_request id]
      /\ (List.length (requests (ILLUST_download_ugoira env id type) h) <= 2)%nat) /\
  (forall id type result,
      outcome (ILLUST_ugoira_metadata env id) h = Ok result ->
      requests (ILLUST_download_ugoira env id type) h
      = [metadata_request id;
         Download (zip_location (zip_url (metadata result))) None]) /\
  (forall id full filter output,
      List.filter is_get (issued (ILLUST_download env id full filter output) h)
      = [detail_request id filter]) /\
  (forall id full filter output detail,
      outcome (ILLUST_detail env id filter) h = Ok detail ->
      (List.length (requests (ILLUST_download env id full filter output) h)
       <= 1 + selected full (illust detail))%nat).
Proof.
  repeat match goal with |- _ /\ _ => split end;
    try (intros; apply single_request_get_then_parse).
  - intros id type.
    destruct (ILLUST_download_ugoira_events env id type h)
      as (evs & r & Hrun & Hget & Hreq).
    unfold requests.
    rewrite (issued_of_run _ h (metadata_request id :: evs) r Hrun).
    simpl. rewrite Hget. split; [reflexivity|lia].
  - intros id type result Hmeta.
    assert (exists evs r,
               ILLUST_download_ugoira env id type h
               = (h ++ [metadata_request id;
                        Download (zip_location (zip_url (metadata result))) None]
                    ++ evs, r)
               /\ Forall (fun e => is_zip_event e = true) evs)
      as (evs & r & Hrun & Hzip).
    { rewrite (ILLUST_download_ugoira_run env id type h result Hmeta).
      unfold bind, client_download.
      destruct (http_download env _ _ None) as [data|e].
      - destruct (unpack_ugoira_events env (metadata result) data type
                    ((h ++ [metadata_request id])
                       ++ [Download (zip_location (zip_url (metadata result))) None]))
          as (evs & r & Hrun & Hzip).
        exists evs, r. rewrite Hrun, <- !app_assoc.
        split; [reflexivity|exact Hzip].
      - exists [], (Raise e). rewrite <- app_assoc.
        split; [reflexivity|constructor]. }
    destruct (zip_events_are_not_requests evs Hzip) as (Hreq & _).
    unfold requests. rewrite (issued_of_run _ h _ r Hrun).
    simpl. now rewrite Hreq.
  - intros id full filter output.
    destruct (ILLUST_download_events env id full filter output h)
      as (evs & r & Hrun & Hdown & _).
    destruct (downloads_are_requests output evs Hdown) as (_ & Hget & _).
    rewrite (issued_of_run _ h _ r Hrun). simpl. now rewrite Hget.
  - intros id full filter output detail Hdetail.
    destruct (ILLUST_download_events env id full filter output h)
      as (evs & r & Hrun & Hdown & Hbound).
    destruct (downloads_are_requests output evs Hdown) as (Hreq & _).
    destruct (Hbound detail Hdetail) as [Hle _].
    unfold requests. rewrite (issued_of_run _ h _ r Hrun).
    simpl. rewrite Hreq. lia.
Qed.

Lemma requests_per_call_witness :
  requests (ILLUST_download_ugoira world 7 "jpg") []
  = [metadata_request 7; Download (zip_location zip_urls) None]
  /\ (List.length (requests (ILLUST_download world 8 true PNone None) []) <= 2)%nat.
Proof.
  destruct (requests_per_call world [])
    as (_ & _ & _ & _ & _ & _ & _ & _ & _ & Hugoira & _ & Hdownload).
  split.
  - apply (Hugoira 7 "jpg" {| metadata := two_frames |}). reflexivity.
  - apply (Hdownload 8 true PNone None {| illust := picture |}). reflexivity.
Defined.

(** ** The wrong download method *)

(** [ILLUST.download] rejects an artwork of type ugoira, after the detail
    request and before any download. *)
Lemma ILLUST_download_rejects_ugoira
    (env : Env) id full filter output h detail :
  outcome (ILLUST_detail env id filter) h = Ok detail ->
  type_ (illust detail) = ArtWorkType.ugoira ->
  ILLUST_download env id full filter output h
  = (h ++ [detail_request id filter],
     Raise (ArtWorkTypeError use_download_ugoira)).
Proof.
  unfold outcome. rewrite ILLUST_detail_run. simpl snd. intros Hdetail Htype.
  unfold ILLUST_download. unfold bind at 1.
  rewrite ILLUST_detail_run, Hdetail. unfold bind, lift.
  now rewrite Htype.
Qed.

(** [ArtWork.download_ugoira] rejects every artwork whose type is not
    ugoira, before any request. *)
Lemma ArtWork_download_ugoira_rejects_others (env : Env) self type h :
  type_ self <> ArtWorkType.ugoira ->
  ArtWork_download_ugoira env self type h
  = (h, Raise (ArtWorkTypeError use_download)).
Proof.
  intro Htype. unfold ArtWork_download_ugoira, bind, lift.
  destruct (type_ self); try reflexivity.
  now contradiction Htype.
Qed.

(** [ArtWork.download] does not depend on the type of the artwork. *)
Lemma ArtWork_download_ignores_type (env : Env) self t full output h :
  ArtWork_download env (with_type self t) full output h
  = ArtWork_download env self full output h.
Proof. reflexivity. Qed.

(** C1: [ArtWork.download] has no check of the type.  On an artwork of type
    ugoira it downloads the single-page URL and returns; nothing is
    raised. *)
Theorem ArtWork_download_accepts_ugoira :
  type_ animation = ArtWorkType.ugoira /\
  ArtWork_download world animation false None []
  = ([Download (pximg "o.jpg") None], Ok [Some frame0]).
Proof.
  split; reflexivity.
Qed.

(** ** The output destination *)

(** [ILLUST.download] passes the caller's [output] to every download. *)
Lemma ILLUST_download_forwards_output (env : Env) id full filter output h :
  Forall (fun e => exists u, e = Download (Some u) output)
         (List.filter is_download (issued (ILLUST_download env id full filter output) h)).
Proof.
  destruct (ILLUST_download_events env id full filter output h)
    as (evs & r & Hrun & Hdown & _).
  rewrite (issued_of_run _ h _ r Hrun). simpl.
  destruct (downloads_are_requests output evs Hdown) as (_ & _ & ->).
  exact Hdown.
Qed.

(** The multi-page branch of [ArtWork.download] passes [output] too. *)
Lemma ArtWork_download_full_forwards_output (env : Env) self output h :
  meta_pages self <> [] ->
  Forall (fun e => exists u, e = Download (Some u) output)
         (issued (ArtWork_download env self true output) h).
Proof.
  intro Hpages. unfold ArtWork_download.
  destruct (meta_pages self) as [|meta_page rest] eqn:Epages;
    [now contradiction Hpages|].
  simpl negb. simpl is_empty. simpl orb. cbv iota.
  destruct (for_append_downloads env meta_page_url output (meta_page :: rest) [] h)
    as (k & r & Hrun & _).
  rewrite (issued_of_run _ h _ r Hrun).
  apply Forall_forall. intros e He.
  apply in_map_iff in He as (page & <- & _). eauto.
Qed.

(** C4: the single-page branch of [ArtWork.download] calls the transport
    without the caller's [output]: whatever destination is given, the one
    download it issues carries none. *)
Theorem ArtWork_download_single_page_drops_output
    (env : Env) (self : ArtWork) (output : option string) (h : History) :
  ArtWork_download env self false output h
  = (h ++ [Download (Some (single_page_url self)) None],
     match http_download env h (Some (single_page_url self)) None with
     | Ok data => Ok [data]
     | Raise e => Raise e
     end).
Proof.
  unfold ArtWork_download. cbn [negb orb].
  unfold bind, client_download.
  destruct (http_download env h _ None); reflexivity.
Qed.

(** ** The seed ids of [related] *)

(** C5: the identity test against the class [list] holds for no list of
    ids, so [related] wraps whatever it is given: a list of seed ids is
    sent nested in a one-element list, a single id as a one-element list,
    and [None] as the one-element list holding [None]. *)
Theorem related_wraps_seed_ids
    (env : Env) (id : Z) (filter : PyVal) (offset : option Z) (h : History) :
  let sent seed_ids :=
    [Get (api V2_API "illust/related")
       [("illust_id", PInt id); ("offset", of_optional_int offset);
        ("filter", filter); ("seed_illust_ids", seed_ids)]] in
  (forall ids,
      issued (ILLUST_related env id filter offset (PList ids)) h
      = sent (PList [PList ids])) /\
  (forall seed,
      issued (ILLUST_related env id filter offset (PInt seed)) h
      = sent (PList [PInt seed])) /\
  issued (ILLUST_related env id filter offset PNone) h = sent (PList [PNone]).
Proof.
  intro sent. subst sent.
  repeat split; intros; unfold ILLUST_related;
    match goal with
    | |- issued (bind (client_get ?e ?u ?p) (fun d => lift (?f d))) ?h = _ =>
        destruct (get_then_parse e u p f h) as [r Hrun];
        rewrite (issued_of_run _ h _ r Hrun)
    end; reflexivity.
Qed.

(** * Further properties *)

(** The loop in full: which events it issues, when it returns and where an
    exception comes from. *)
Lemma for_append_run {A B : Type} (body : A -> M B) (ev : A -> Event) :
  (forall x h, fst (body x h) = h ++ [ev x]) ->
  forall (xs : list A) (result : list B) h,
  exists k r,
    for_append body xs result h = (h ++ map ev (firstn k xs), r)
    /\ (k <= List.length xs)%nat
    /\ (xs <> [] -> (1 <= k)%nat)
    /\ (forall v, r = Ok v ->
          k = List.length xs
          /\ List.length v = (List.length result + List.length xs)%nat)
    /\ (forall e, r = Raise e ->
          exists j x,
            k = S j /\ nth_error xs j = Some x
            /\ snd (body x (h ++ map ev (firstn j xs))) = Raise e).
Proof.
  intros Hbody xs.
  induction xs as [|x rest IH]; intros result h.
  - exists 0%nat, (Ok result). simpl. rewrite app_nil_r.
    split; [reflexivity|]. split; [lia|]. split; [congruence|].
    split; [|discriminate].
    intros v [= <-]. split; [reflexivity|lia].
  - simpl for_append. unfold bind at 1.
    pose proof (Hbody x h) as Hx.
    destruct (body x h) as [h' [b|e]] eqn:Ebody; simpl in Hx; subst h'.
    + destruct (IH (result ++ [b]) (h ++ [ev x]))
        as (k & r & Hrun & Hk & _ & Hok & Herr).
      exists (S k), r. rewrite Hrun. simpl. rewrite <- app_assoc. simpl.
      split; [reflexivity|]. split; [lia|]. split; [lia|]. split.
      * intros v Hv. destruct (Hok v Hv) as [-> Hlen].
        split; [reflexivity|]. rewrite Hlen, length_app. simpl. lia.
      * intros e He. destruct (Herr e He) as (j & x' & -> & Hnth & Hraise).
        exists (S j), x'. split; [reflexivity|]. split; [exact Hnth|].
        simpl. rewrite <- app_assoc in Hraise. exact Hraise.
    + exists 1%nat, (Raise e). simpl.
      split; [reflexivity|]. split; [lia|]. split; [lia|].
      split; [discriminate|].
      intros e' [= <-]. exists 0%nat, x. simpl. rewrite app_nil_r, Ebody. auto.
Qed.

(** ** Further properties of the model classes *)

(** X1: between members, [==] is identity and is symmetric, and [!=] is its
    negation; a string is equal to at most one member. *)
Theorem ArtWorkType_eq_is_identity :
  (forall t u, ArtWorkType.eq t (ArtWorkType.Member u) = Ok true <-> t = u) /\
  (forall t u, ArtWorkType.eq t (ArtWorkType.Member u)
               = ArtWorkType.eq u (ArtWorkType.Member t)) /\
  (forall t u, ArtWorkType.ne t (ArtWorkType.Member u) = Ok true <-> t <> u) /\
  (forall t u s,
      ArtWorkType.eq t (ArtWorkType.of_str s) = Ok true ->
      ArtWorkType.eq u (ArtWorkType.of_str s) = Ok true -> t = u).
Proof.
  split; [|split; [|split]].
  - intros t u. split.
    + intros [= H]. apply value_injective. now apply String.eqb_eq.
    + intros ->. simpl. now rewrite String.eqb_refl.
  - intros t u. simpl. now rewrite String.eqb_sym.
  - intros t u. destruct t, u; simpl; split; intro H;
      try reflexivity; try discriminate H; try congruence; now contradiction H.
  - intros t u s [= Ht] [= Hu].
    apply String.eqb_eq in Ht, Hu. apply value_injective. congruence.
Qed.

(** X2: [is_r18] always returns, and its value depends on the first tag
    alone: it is true exactly when that tag's name, with its hyphens
    removed, reads [R18] or [r18]. *)
Theorem is_r18_value (self : ArtWork) :
  is_r18 self =
  Ok (match tags self with
      | [] => false
      | tag0 :: _ =>
          (String.eqb (without_hyphens (name tag0)) "R18"
           || String.eqb (without_hyphens (name tag0)) "r18")%bool
      end).
Proof.
  unfold is_r18. destruct (tags self) as [|tag0 rest]; [reflexivity|].
  change (py_index (tag0 :: rest) 0) with (Ok tag0).
  replace (Z.of_nat (List.length (tag0 :: rest)) >=? 1) with true
    by (symmetry; apply Z.geb_le; simpl List.length; lia).
  f_equal. fold (without_hyphens (str_title (name tag0))).
  apply eq_true_iff_eq. rewrite orb_true_iff, !String.eqb_eq.
  apply title_R18.
Qed.

Lemma fold_append_map {A B : Type} (f : A -> B) (xs : list A) (acc : list B) :
  fold_left (fun result x => result ++ [f x]) xs acc = acc ++ map f xs.
Proof.
  revert acc. induction xs as [|x rest IH]; intro acc; simpl.
  - now rewrite app_nil_r.
  - now rewrite IH, <- app_assoc.
Qed.

Lemma all_image_urls_map {YarlURL : Type} (URL_new : string -> YarlURL)
    (self : ArtWork) :
  all_image_urls URL_new self
  = map (fun page => URL_new (meta_page_url page)) (meta_pages self).
Proof.
  unfold all_image_urls.
  now rewrite (fold_append_map (fun page => URL_new (meta_page_url page))).
Qed.

(** X3: [all_image_urls] holds one [URL] object per meta page, in the order
    of the pages: for each page the [URL] built from the text of the
    original variant, or of the large one when the original is missing. *)
Theorem all_image_urls_per_page {YarlURL : Type} (URL_new : string -> YarlURL)
    (self : ArtWork) :
  all_image_urls URL_new self
  = map (fun page => URL_new (meta_page_url page)) (meta_pages self)
  /\ List.length (all_image_urls URL_new self) = List.length (meta_pages self)
  /\ (forall i page u,
        nth_error (meta_pages self) i = Some page ->
        valid_bundle (page_image_urls page) ->
        first_present [original (page_image_urls page);
                       large (page_image_urls page)] = Some u ->
        nth_error (all_image_urls URL_new self) i = Some (URL_new u)).
Proof.
  pose proof (all_image_urls_map URL_new self) as Hmap.
  split; [exact Hmap|]. split; [now rewrite Hmap, length_map|].
  intros i page u Hpage (Ho & Hl & _) Hu.
  rewrite Hmap, nth_error_map, Hpage. simpl. do 2 f_equal.
  unfold meta_page_url.
  destruct (original (page_image_urls page)), (large (page_image_urls page));
    eval_or; simpl in *; congruence.
Qed.

Lemma ILLUST_detail_Ok (env : Env) id filter h detail :
  outcome (ILLUST_detail env id filter) h = Ok detail ->
  ILLUST_detail env id filter h = (h ++ [detail_request id filter], Ok detail).
Proof.
  unfold outcome. rewrite ILLUST_detail_run. simpl. now intros ->.
Qed.

Lemma ILLUST_detail_Raise (env : Env) id filter h e :
  outcome (ILLUST_detail env id filter) h = Raise e ->
  ILLUST_detail env id filter h = (h ++ [detail_request id filter], Raise e).
Proof.
  unfold outcome. rewrite ILLUST_detail_run. simpl. now intros ->.
Qed.

Lemma eq_ugoira_false (t : ArtWorkType.t) :
  t <> ArtWorkType.ugoira ->
  ArtWorkType.eq t (ArtWorkType.Member ArtWorkType.ugoira) = Ok false.
Proof.
  intro Ht. destruct t; try reflexivity. now contradiction Ht.
Qed.

(** The downloads of a selection, as one loop over its URLs. *)
Lemma downloads_run (env : Env) {A : Type} (url : A -> string) output
    (xs : list A) (result : list (option bytes)) h :
  exists k r,
    for_append (fun x => client_download env (Some (url x)) output) xs result h
    = (h ++ map (fun u => Download (Some u) output) (firstn k (map url xs)), r)
    /\ (k <= List.length xs)%nat
    /\ (xs <> [] -> (1 <= k)%nat)
    /\ (forall v, r = Ok v ->
          k = List.length xs
          /\ List.length v = (List.length result + List.length xs)%nat)
    /\ (forall e, r = Raise e ->
          exists h' u, http_download env h' (Some u) output = Raise e).
Proof.
  destruct (for_append_run
              (fun x => client_download env (Some (url x)) output)
              (fun x => Download (Some (url x)) output)
              (fun x h => eq_refl) xs result h)
    as (k & r & Hrun & Hk & Hne & Hok & Herr).
  exists k, r. rewrite Hrun, firstn_map, map_map.
  split; [reflexivity|]. split; [exact Hk|]. split; [exact Hne|].
  split; [exact Hok|].
  intros e He. destruct (Herr e He) as (j & x & _ & _ & Hraise).
  simpl in Hraise. eauto.
Qed.





Lemma ugoira_or_not (t : ArtWorkType.t) :
  t = ArtWorkType.ugoira \/ t <> ArtWorkType.ugoira.
Proof.
  destruct t; auto; right; discriminate.
Qed.

(** X6: an exception of [ILLUST.download] is either the one of the detail
    request, or [ArtWorkTypeError] on an artwork of type ugoira, or the one
    a transport download raised: the method raises nothing else. *)
Theorem ILLUST_download_exceptions
    (env : Env) (id : Z) (full : bool) (filter : PyVal)
    (output : option string) (h : History) (e : Exn) :
  outcome (ILLUST_download env id full filter output) h = Raise e ->
  outcome (ILLUST_detail env id filter) h = Raise e
  \/ (exists detail,
        outcome (ILLUST_detail env id filter) h = Ok detail
        /\ type_ (illust detail) = ArtWorkType.ugoira
        /\ e = ArtWorkTypeError use_download_ugoira)
  \/ (exists h' u, http_download env h' (Some u) output = Raise e).
Proof.
  destruct (outcome (ILLUST_detail env id filter) h) as [detail|e0] eqn:Hdetail.
  - destruct (ugoira_or_not (type_ (illust detail))) as [Htype|Htype].
    + rewrite (outcome_of_run _ _ _ _
                 (ILLUST_download_rejects_ugoira env id full filter output h
                    detail Hdetail Htype)).
      intros [= <-]. right. left. eauto.
    + unfold outcome, ILLUST_download.
      rewrite (bind_Ok _ _ _ _ _ (ILLUST_detail_Ok env id filter h detail Hdetail)).
      unfold bind at 1, lift. rewrite (eq_ugoira_false _ Htype).
      destruct (negb full || is_empty (meta_pages (illust detail)))%bool.
      * unfold bind, client_download.
        destruct (http_download env _ _ output) as [data|e1] eqn:Hdown;
          simpl; [discriminate|].
        intros [= <-]. right. right. eauto.
      * destruct (downloads_run env meta_page_url output
                    (meta_pages (illust detail)) []
                    (h ++ [detail_request id filter]))
          as (k & r & Hrun & _ & _ & _ & Herr).
        rewrite Hrun. simpl. intro Hr. right. right. now apply Herr.
  - unfold outcome, ILLUST_download.
    rewrite (bind_Raise _ _ _ _ _ (ILLUST_detail_Raise env id filter h e0 Hdetail)).
    simpl. intros [= <-]. now left.
Qed.

Lemma ILLUST_download_exceptions_witness :
  outcome (ILLUST_detail world 7 PNone) [] = Raise (ArtWorkTypeError use_download_ugoira)
  \/ (exists detail,
        outcome (ILLUST_detail world 7 PNone) [] = Ok detail
        /\ type_ (illust detail) = ArtWorkType.ugoira
        /\ ArtWorkTypeError use_download_ugoira = ArtWorkTypeError use_download_ugoira)
  \/ (exists h' u,
        http_download world h' (Some u) None
        = Raise (ArtWorkTypeError use_download_ugoira)).
Proof.
  apply (ILLUST_download_exceptions world 7 false PNone None []).
  reflexivity.
Defined.

(** X7: when the detail request fails, [ILLUST.download] raises the same
    exception and issues no download: the history holds the detail request
    alone. *)
Theorem ILLUST_download_detail_failure
    (env : Env) (id : Z) (full : bool) (filter : PyVal)
    (output : option string) (h : History) (e : Exn) :
  outcome (ILLUST_detail env id filter) h = Raise e ->
  ILLUST_download env id full filter output h
  = (h ++ [detail_request id filter], Raise e).
Proof.
  intro Hdetail. unfold ILLUST_download.
  now rewrite (bind_Raise _ _ _ _ _
                 (ILLUST_detail_Raise env id filter h e Hdetail)).
Qed.

Lemma ILLUST_download_detail_failure_witness :
  ILLUST_download world 1 true PNone None []
  = ([] ++ [detail_request 1 PNone], Raise ValueError).
Proof.
  apply (ILLUST_download_detail_failure world 1 true PNone None [] ValueError).
  reflexivity.
Defined.

(** ** Failures while unpacking an ugoira *)

Lemma ILLUST_download_ugoira_downloaded (env : Env) id type h result data :
  outcome (ILLUST_ugoira_metadata env id) h = Ok result ->
  http_download env (h ++ [metadata_request id])
    (zip_location (zip_url (metadata result))) None = Ok data ->
  ILLUST_download_ugoira env id type h
  = unpack_ugoira env (metadata result) data type
      (h ++ [metadata_request id;
             Download (zip_location (zip_url (metadata result))) None]).
Proof.
  intros Hmeta Hdata.
  rewrite (ILLUST_download_ugoira_run env id type h result Hmeta).
  unfold bind, client_download. rewrite Hdata. now rewrite <- app_assoc.
Qed.

(** X8: with type [zip], [download_ugoira] returns the [ZipFile] as soon as
    the payload opens, whatever the manifest lists: no member is looked up,
    so a frame entry that names no member of the archive goes unnoticed. *)
Theorem download_ugoira_zip_ignores_manifest
    (env : Env) (h : History) (id : Z) (result : UgoiraMetadataResult)
    (data : bytes) :
  outcome (ILLUST_ugoira_metadata env id) h = Ok result ->
  http_download env (h ++ [metadata_request id])
    (zip_location (zip_url (metadata result))) None = Ok (Some data) ->
  zip_init env data = Ok tt ->
  ILLUST_download_ugoira env id "zip" h
  = (h ++ [metadata_request id;
           Download (zip_location (zip_url (metadata result))) None;
           ZipFileInit data],
     Ok (Some (AsZip {| zip_payload := data |}))).
Proof.
  intros Hmeta Hdata Hinit.
  rewrite (ILLUST_download_ugoira_downloaded env id "zip" h result _ Hmeta Hdata).
  rewrite (unpack_ugoira_zip env _ data _ Hinit).
  now rewrite <- app_assoc.
Qed.

(** X9: when the payload does not open as a ZIP, [download_ugoira] raises
    the exception of [ZipFile] for every requested type, and reads no
    member. *)
Theorem download_ugoira_bad_zip
    (env : Env) (h : History) (id : Z) (result : UgoiraMetadataResult)
    (data : bytes) (type : string) (e : Exn) :
  outcome (ILLUST_ugoira_metadata env id) h = Ok result ->
  http_download env (h ++ [metadata_request id])
    (zip_location (zip_url (metadata result))) None = Ok (Some data) ->
  zip_init env data = Raise e ->
  ILLUST_download_ugoira env id type h
  = (h ++ [metadata_request id;
           Download (zip_location (zip_url (metadata result))) None;
           ZipFileInit data],
     Raise e).
Proof.
  intros Hmeta Hdata Hinit.
  rewrite (ILLUST_download_ugoira_downloaded env id type h result _ Hmeta Hdata).
  unfold unpack_ugoira, bind, ZipFile_new. rewrite Hinit.
  now rewrite <- app_assoc.
Qed.

(** The frame loop up to the first entry that cannot be read. *)
Lemma for_append_frames_until zip_env zip_file
    (readable : list Frame) payloads (missing : Frame) (later : list Frame) e :
  Forall2 (fun frame_info payload =>
             zip_read zip_env (zip_payload zip_file) (file frame_info) = Ok payload)
          readable payloads ->
  zip_read zip_env (zip_payload zip_file) (file missing) = Raise e ->
  forall result h,
    for_append (fun frame_info => ZipFile_read zip_env zip_file (file frame_info))
               (readable ++ missing :: later) result h
    = (h ++ map (fun frame_info => ZipFileRead (file frame_info))
                (readable ++ [missing]),
       Raise e).
Proof.
  intros Hreads Hmissing.
  induction Hreads as [|frame_info payload rest payloads' Hread _ IH];
    intros result h; simpl.
  - unfold bind, ZipFile_read. now rewrite Hmissing.
  - unfold bind at 1. unfold ZipFile_read at 1. rewrite Hread.
    rewrite IH, <- app_assoc. reflexivity.
Qed.

(** X10: when a frame entry names no member of the archive, [download_ugoira]
    with a type other than [zip] raises the exception of that lookup; the
    members before it were read in order and their payloads are lost, the
    entries after it are never looked up. *)
Theorem download_ugoira_missing_member
    (env : Env) (h : History) (id : Z) (result : UgoiraMetadataResult)
    (data : bytes) (type : string)
    (readable : list Frame) (payloads : list bytes)
    (missing : Frame) (later : list Frame) (e : Exn) :
  outcome (ILLUST_ugoira_metadata env id) h = Ok result ->
  http_download env (h ++ [metadata_request id])
    (zip_location (zip_url (metadata result))) None = Ok (Some data) ->
  zip_init env data = Ok tt ->
  frames (metadata result) = readable ++ missing :: later ->
  Forall2 (fun frame_info payload =>
             zip_read env data (file frame_info) = Ok payload)
          readable payloads ->
  zip_read env data (file missing) = Raise e ->
  type <> "zip" ->
  ILLUST_download_ugoira env id type h
  = (h ++ [metadata_request id;
           Download (zip_location (zip_url (metadata result))) None;
           ZipFileInit data]
       ++ map (fun frame_info => ZipFileRead (file frame_info))
              (readable ++ [missing]),
     Raise e).
Proof.
  intros Hmeta Hdata Hinit Hframes Hreads Hmissing Htype.
  rewrite (ILLUST_download_ugoira_downloaded env id type h result _ Hmeta Hdata).
  apply String.eqb_neq in Htype.
  unfold unpack_ugoira. unfold bind at 1. unfold ZipFile_new.
  rewrite Hinit, Htype, Hframes. unfold bind.
  rewrite (for_append_frames_until env {| zip_payload := data |}
             readable payloads missing later e Hreads Hmissing).
  now rewrite <- !app_assoc.
Qed.

Lemma download_ugoira_zip_ignores_manifest_witness :
  ILLUST_download_ugoira short_archive 7 "zip" []
  = ([] ++ [metadata_request 7;
            Download (zip_location (zip_url two_frames)) None;
            ZipFileInit archive],
     Ok (Some (AsZip {| zip_payload := archive |}))).
Proof.
  apply (download_ugoira_zip_ignores_manifest short_archive [] 7
           {| metadata := two_frames |} archive); reflexivity.
Defined.

Lemma download_ugoira_bad_zip_witness :
  ILLUST_download_ugoira broken_archive 7 "jpg" []
  = ([] ++ [metadata_request 7;
            Download (zip_location (zip_url two_frames)) None;
            ZipFileInit archive],
     Raise BadZipFile).
Proof.
  apply (download_ugoira_bad_zip broken_archive [] 7
           {| metadata := two_frames |} archive "jpg" BadZipFile); reflexivity.
Defined.

Lemma download_ugoira_missing_member_witness :
  ILLUST_download_ugoira short_archive 7 "jpg" []
  = ([] ++ [metadata_request 7;
            Download (zip_location (zip_url two_frames)) None;
            ZipFileInit archive]
        ++ map (fun frame_info => ZipFileRead (file frame_info))
               ([ {| file := "000000.jpg"; delay := 60 |} ]
                  ++ [ {| file := "000001.jpg"; delay := 90 |} ]),
     Raise (KeyError "000001.jpg")).
Proof.
  apply (download_ugoira_missing_member short_archive [] 7
           {| metadata := two_frames |} archive "jpg"
           [ {| file := "000000.jpg"; delay := 60 |} ] [frame0]
           {| file := "000001.jpg"; delay := 90 |} []
           (KeyError "000001.jpg")).
  - reflexivity.
  - reflexivity.
  - reflexivity.
  - reflexivity.
  - repeat constructor.
  - reflexivity.
  - discriminate.
Defined.

(** X11: the requested type is compared with [zip], [jpg] and [iter] only.
    With [iter] the frames are those of [jpg], in the same order, and any
    other value, not only [all], gives the dictionary of the [ZipFile] and
    the frames. *)
Theorem download_ugoira_type_dispatch
    (env : Env) (h : History) (id : Z) (result : UgoiraMetadataResult)
    (data : bytes) (payloads : list bytes) (type : string) :
  outcome (ILLUST_ugoira_metadata env id) h = Ok result ->
  http_download env (h ++ [metadata_request id])
    (zip_location (zip_url (metadata result))) None = Ok (Some data) ->
  zip_init env data = Ok tt ->
  Forall2 (fun frame_info payload =>
             zip_read env data (file frame_info) = Ok payload)
          (frames (metadata result)) payloads ->
  type <> "zip" -> type <> "jpg" -> type <> "iter" ->
  outcome (ILLUST_download_ugoira env id "jpg") h
    = Ok (Some (AsFrames payloads)) /\
  outcome (ILLUST_download_ugoira env id "iter") h
    = Ok (Some (AsIter payloads)) /\
  outcome (ILLUST_download_ugoira env id type) h
    = Ok (Some (AsDict {| zip_payload := data |} payloads)) /\
  issued (ILLUST_download_ugoira env id type) h
    = issued (ILLUST_download_ugoira env id "jpg") h.
Proof.
  intros Hmeta Hdata Hinit Hreads Hzip Hjpg Hiter.
  apply String.eqb_neq in Hzip, Hjpg, Hiter.
  assert (Hrun : forall ty, String.eqb ty "zip" = false ->
             ILLUST_download_ugoira env id ty h
             = ((h ++ [metadata_request id;
                       Download (zip_location (zip_url (metadata result))) None])
                  ++ ZipFileInit data
                  :: map (fun frame_info => ZipFileRead (file frame_info))
                         (frames (metadata result)),
                Ok (Some (if String.eqb ty "jpg" then AsFrames payloads
                          else if String.eqb ty "iter" then AsIter payloads
                          else AsDict {| zip_payload := data |} payloads)))).
  { intros ty Hty.
    rewrite (ILLUST_download_ugoira_downloaded env id ty h result _ Hmeta Hdata).
    now apply unpack_ugoira_frames. }
  unfold outcome, issued.
  rewrite (Hrun "jpg" eq_refl), (Hrun "iter" eq_refl), (Hrun type Hzip).
  simpl snd. simpl fst. rewrite Hjpg, Hiter. auto.
Qed.

Lemma download_ugoira_type_dispatch_witness :
  outcome (ILLUST_download_ugoira world 7 "jpg") []
    = Ok (Some (AsFrames [frame0; frame1])) /\
  outcome (ILLUST_download_ugoira world 7 "iter") []
    = Ok (Some (AsIter [frame0; frame1])) /\
  outcome (ILLUST_download_ugoira world 7 "gif") []
    = Ok (Some (AsDict {| zip_payload := archive |} [frame0; frame1])) /\
  issued (ILLUST_download_ugoira world 7 "gif") []
    = issued (ILLUST_download_ugoira world 7 "jpg") [].
Proof.
  apply (download_ugoira_type_dispatch world [] 7 {| metadata := two_frames |}
           archive [frame0; frame1] "gif");
    try reflexivity; try discriminate.
  repeat constructor.
Defined.

(** X12: a failure of the transport reaches the caller of [download_ugoira]
    unchanged and ends the call: when the manifest request fails nothing is
    downloaded, and when the download fails no archive is opened. *)
Theorem download_ugoira_transport_failure
    (env : Env) (h : History) (id : Z) (type : string) (e : Exn) :
  (outcome (ILLUST_ugoira_metadata env id) h = Raise e ->
   ILLUST_download_ugoira env id type h = (h ++ [metadata_request id], Raise e))
  /\
  (forall result,
      outcome (ILLUST_ugoira_metadata env id) h = Ok result ->
      http_download env (h ++ [metadata_request id])
        (zip_location (zip_url (metadata result))) None = Raise e ->
      ILLUST_download_ugoira env id type h
      = (h ++ [metadata_request id;
               Download (zip_location (zip_url (metadata result))) None],
         Raise e)).
Proof.
  split.
  - unfold outcome. rewrite ILLUST_ugoira_metadata_run. simpl snd. intro Hmeta.
    unfold ILLUST_download_ugoira, bind.
    now rewrite ILLUST_ugoira_metadata_run, Hmeta.
  - intros result Hmeta Hdata.
    rewrite (ILLUST_download_ugoira_run env id type h result Hmeta).
    unfold bind, client_download. rewrite Hdata. now rewrite <- app_assoc.
Qed.

Lemma download_ugoira_transport_failure_witness :
  ILLUST_download_ugoira offline 7 "jpg" []
    = ([] ++ [metadata_request 7], Raise (OtherError "ConnectError"))
  /\ ILLUST_download_ugoira no_image_host 7 "jpg" []
    = ([] ++ [metadata_request 7;
              Download (zip_location (zip_url two_frames)) None],
       Raise (OtherError "ConnectError")).
Proof.
  split.
  - apply (download_ugoira_transport_failure offline [] 7 "jpg"
             (OtherError "ConnectError")).
    reflexivity.
  - apply (download_ugoira_transport_failure no_image_host [] 7 "jpg"
             (OtherError "ConnectError") ) with (result := {| metadata := two_frames |});
      reflexivity.
Defined.

(** ** The methods of [ArtWork] against those of the section *)

(** X13: [ArtWork.ugoira_metadata] asks the server only for an artwork of
    type ugoira: for any other type it returns [None] without a request;
    for an ugoira it issues the manifest request for its own id and returns
    the manifest, or raises what that request raised. *)
Theorem ArtWork_ugoira_metadata_by_type
    (env : Env) (self : ArtWork) (h : History) :
  ArtWork_ugoira_metadata env self h
  = match type_ self with
    | ArtWorkType.ugoira =>
        (h ++ [metadata_request (art_id self)],
         match outcome (ILLUST_ugoira_metadata env (art_id self)) h with
         | Ok result => Ok (Some (metadata result))
         | Raise e => Raise e
         end)
    | _ => (h, Ok None)
    end.
Proof.
  unfold ArtWork_ugoira_metadata, outcome.
  destruct (type_ self); try reflexivity.
  unfold bind, lift.
  change (ArtWorkType.ne ArtWorkType.ugoira (ArtWorkType.Member ArtWorkType.ugoira))
    with (@Ok bool false).
  cbv iota beta. rewrite ILLUST_ugoira_metadata_run. simpl snd.
  destruct (http_get env h _ _) as [data|e]; [|reflexivity].
  destruct (parse_ugoira env data); reflexivity.
Qed.

Lemma app_cons_not_self {A : Type} (h : list A) (x : A) (rest : list A) :
  h ++ x :: rest <> h.
Proof.
  intro H. apply (f_equal (@List.length A)) in H.
  rewrite length_app in H. simpl in H. lia.
Qed.

(** X14: [ArtWork.download_ugoira] raises [ArtWorkTypeError] before any
    request exactly on the artworks whose type is not ugoira; on an ugoira
    it behaves as [ILLUST.download_ugoira] on the artwork's id, and so
    always issues the manifest request. *)
Theorem ArtWork_download_ugoira_gate
    (env : Env) (self : ArtWork) (type : string) (h : History) :
  (type_ self <> ArtWorkType.ugoira <->
   ArtWork_download_ugoira env self type h
   = (h, Raise (ArtWorkTypeError use_download)))
  /\ (type_ self = ArtWorkType.ugoira ->
      ArtWork_download_ugoira env self type h
      = ILLUST_download_ugoira env (art_id self) type h)
  /\ (type_ self = ArtWorkType.ugoira ->
      exists evs,
        issued (ArtWork_download_ugoira env self type) h
        = metadata_request (art_id self) :: evs).
Proof.
  assert (Hugoira : type_ self = ArtWorkType.ugoira ->
            exists evs r,
              ArtWork_download_ugoira env self type h
              = (h ++ metadata_request (art_id self) :: evs, r)).
  { intro Htype. rewrite (ArtWork_download_ugoira_as_ILLUST env self type h Htype).
    destruct (ILLUST_download_ugoira_events env (art_id self) type h)
      as (evs & r & Hrun & _). eauto. }
  split; [split|split].
  - apply ArtWork_download_ugoira_rejects_others.
  - intros Hrun Htype. destruct (Hugoira Htype) as (evs & r & Hrun').
    rewrite Hrun' in Hrun. injection Hrun as Hh _.
    now apply app_cons_not_self in Hh.
  - apply ArtWork_download_ugoira_as_ILLUST.
  - intro Htype. destruct (Hugoira Htype) as (evs & r & Hrun).
    exists evs. now apply (issued_of_run _ h _ r).
Qed.

(** X15: [ILLUST.download] is the detail request followed by
    [ArtWork.download] on the artwork received, whenever the artwork is not
    an ugoira and either no [output] is given or the multi-page branch is
    taken. *)
Theorem ILLUST_download_as_ArtWork_download
    (env : Env) (id : Z) (full : bool) (filter : PyVal)
    (output : option string) (h : History) (detail : IllustDetailResult) :
  outcome (ILLUST_detail env id filter) h = Ok detail ->
  type_ (illust detail) <> ArtWorkType.ugoira ->
  output = None \/ (full = true /\ meta_pages (illust detail) <> []) ->
  ILLUST_download env id full filter output h
  = ArtWork_download env (illust detail) full output
      (h ++ [detail_request id filter]).
Proof.
  intros Hdetail Htype Hbranch.
  unfold ILLUST_download, ArtWork_download.
  rewrite (bind_Ok _ _ _ _ _ (ILLUST_detail_Ok env id filter h detail Hdetail)).
  unfold bind at 1, lift. rewrite (eq_ugoira_false _ Htype).
  destruct (negb full || is_empty (meta_pages (illust detail)))%bool eqn:Hsel;
    [|reflexivity].
  destruct Hbranch as [->|[-> Hpages]]; [reflexivity|].
  destruct (meta_pages (illust detail)); [now contradiction Hpages|].
  discriminate Hsel.
Qed.

Lemma ILLUST_download_as_ArtWork_download_witness :
  ILLUST_download gallery 9 true PNone (Some "out") []
  = ArtWork_download gallery album true (Some "out") ([] ++ [detail_request 9 PNone]).
Proof.
  apply (ILLUST_download_as_ArtWork_download gallery 9 true PNone (Some "out")
           [] {| illust := album |}).
  - reflexivity.
  - discriminate.
  - right. split; [reflexivity|discriminate].
Defined.

Lemma ArtWork_download_ugoira_gate_witness :
  ArtWork_download_ugoira world picture "zip" []
  = ([], Raise (ArtWorkTypeError use_download))
  /\ ArtWork_download_ugoira world animation "zip" []
     = ILLUST_download_ugoira world (art_id animation) "zip" [].
Proof.
  split.
  - apply (proj1 (ArtWork_download_ugoira_gate world picture "zip" [])).
    discriminate.
  - apply (proj2 (ArtWork_download_ugoira_gate world animation "zip" [])).
    reflexivity.
Defined.

(** ** Links *)

Lemma to_int_not_nil (n : Z) :
  Z.to_int n <> Decimal.Pos Decimal.Nil /\ Z.to_int n <> Decimal.Neg Decimal.Nil.
Proof.
  destruct n as [|p|p]; simpl; split; try discriminate;
    intros [= H]; now apply DecimalPos.Unsigned.to_uint_nonnil in H.
Qed.

(** The decimal text of an [int] reads back as that [int]. *)
Lemma int_of_str_int (n : Z) : int_of_str (str_int n) = Some n.
Proof.
  unfold int_of_str, str_int.
  destruct (to_int_not_nil n) as [Hpos Hneg].
  rewrite (NilZero.isi _ Hpos Hneg). simpl. now rewrite DecimalZ.of_to.
Qed.

Lemma append_slash_injective (x y : string) :
  (x ++ "/")%string = (y ++ "/")%string -> x = y.
Proof.
  revert y. induction x as [|c x IH]; intros [|d y]; simpl; intro H.
  - reflexivity.
  - injection H as _ H. now destruct y.
  - injection H as _ H. now destruct x.
  - injection H as -> H. f_equal. now apply IH.
Qed.

(** X16: the link of an artwork determines its id: two artworks have the
    same link exactly when they have the same id. *)
Theorem link_determines_id (a b : ArtWork) :
  link a = link b <-> art_id a = art_id b.
Proof.
  split.
  - unfold link. intro H. simpl in H. injection H as H.
    apply append_slash_injective in H.
    apply (f_equal int_of_str) in H. rewrite !int_of_str_int in H.
    now injection H.
  - unfold link. now intros ->.
Qed.

(** ** Requests of the model methods *)

(** X17: [ArtWork.detail], [ArtWork.comments] and [ArtWork.related] each
    issue one request, for the artwork's own id; [ArtWork.related] sends a
    given seed id as the one-element list of that id. *)
Theorem ArtWork_methods_request_own_id
    (env : Env) (self : ArtWork) (for_ios : bool) (offset : option Z)
    (seed : Z) (h : History) :
  (exists filter,
      issued (ArtWork_detail env self for_ios) h
      = [detail_request (art_id self) filter])
  /\ issued (ArtWork_comments env self offset) h
     = [Get (api V1_API "illust/comments")
          [("illust_id", PInt (art_id self)); ("offset", of_optional_int offset)]]
  /\ (exists params,
        issued (ArtWork_related env self for_ios offset (Some seed)) h
        = [Get (api V2_API "illust/related") params]
        /\ param "illust_id" params = Some (PInt (art_id self))
        /\ param "offset" params = Some (of_optional_int offset)
        /\ param "seed_illust_ids" params = Some (PList [PInt seed])).
Proof.
  split; [|split].
  - eexists. unfold ArtWork_detail.
    unfold issued. rewrite ILLUST_detail_run. simpl fst.
    now rewrite skipn_length_app.
  - unfold ArtWork_comments, ILLUST_comments.
    destruct (get_then_parse env (api V1_API "illust/comments")
                [("illust_id", PInt (art_id self));
                 ("offset", of_optional_int offset)]
                (parse_obj env IllustCommentResult) h) as [r Hrun].
    now rewrite (issued_of_run _ h _ r Hrun).
  - eexists. unfold ArtWork_related, ILLUST_related.
    match goal with
    | |- issued (bind (client_get ?e ?u ?p) (fun d => lift (?f d))) ?h = _ /\ _ =>
        destruct (get_then_parse e u p f h) as [r Hrun];
        rewrite (issued_of_run _ h _ r Hrun)
    end.
    repeat split.
Qed.

(** ** The choice of a URL *)

(** X18: the location of the ugoira ZIP is always one of the three variants
    of the bundle; it is the original whenever that is usable, and it is
    usable whenever any of the three variants is. *)
Theorem zip_location_choice (zip_url : ImageUrl) :
  (zip_location zip_url = original zip_url
   \/ zip_location zip_url = large zip_url
   \/ zip_location zip_url = medium zip_url)
  /\ (truthy (original zip_url) = true -> zip_location zip_url = original zip_url)
  /\ truthy (zip_location zip_url)
     = (truthy (original zip_url) || truthy (large zip_url)
        || truthy (medium zip_url))%bool.
Proof.
  unfold zip_location, py_or.
  destruct (truthy (original zip_url)) eqn:Ho.
  - rewrite Ho. auto.
  - destruct (truthy (large zip_url)) eqn:Hl.
    + rewrite Hl. split; [auto|]. split; [discriminate|reflexivity].
    + split; [auto|]. split; [discriminate|reflexivity].
Qed.

(** X19: the static-image chain ends at the large variant.  When neither
    original is usable and there is no large variant, [ILLUST.download]
    still issues its download, for the text [None] in place of a URL, even
    if the bundle holds a medium variant. *)
Theorem ILLUST_download_without_large_variant
    (env : Env) (id : Z) (filter : PyVal) (output : option string)
    (h : History) (detail : IllustDetailResult) :
  outcome (ILLUST_detail env id filter) h = Ok detail ->
  type_ (illust detail) <> ArtWorkType.ugoira ->
  truthy (single_original (meta_single_page (illust detail))) = false ->
  truthy (original (image_urls (illust detail))) = false ->
  large (image_urls (illust detail)) = None ->
  issued (ILLUST_download env id false filter output) h
  = [detail_request id filter; Download (Some "None") output].
Proof.
  intros Hdetail Htype Hsingle Horiginal Hlarge.
  assert (Hurl : single_page_url (illust detail) = "None").
  { unfold single_page_url, py_or. now rewrite Hsingle, Horiginal, Hlarge. }
  unfold ILLUST_download.
  unfold issued.
  rewrite (bind_Ok _ _ _ _ _ (ILLUST_detail_Ok env id filter h detail Hdetail)).
  unfold bind at 1, lift. rewrite (eq_ugoira_false _ Htype).
  cbn [negb orb]. unfold bind, client_download. rewrite Hurl.
  destruct (http_download env _ _ output); simpl fst;
    rewrite <- app_assoc; apply skipn_length_app.
Qed.

Lemma ILLUST_download_without_large_variant_witness :
  issued (ILLUST_download world 8 false PNone (Some "out.jpg")) []
  = [detail_request 8 PNone; Download (Some "None") (Some "out.jpg")].
Proof.
  apply (ILLUST_download_without_large_variant world 8 PNone (Some "out.jpg")
           [] {| illust := picture |}); try reflexivity.
  discriminate.
Defined.

(** The values a loop of downloads returns: one per element, each the
    answer of the transport at the point of the call where the download of
    that element was issued. *)
Lemma downloads_results (env : Env) {A : Type} (url : A -> string) output
    (xs : list A) :
  forall (result : list (option bytes)) h h' v,
    for_append (fun x => client_download env (Some (url x)) output) xs result h
    = (h', Ok v) ->
    exists vs,
      v = result ++ vs
      /\ List.length vs = List.length xs
      /\ (forall i x,
            nth_error xs i = Some x ->
            exists data,
              nth_error vs i = Some data
              /\ http_download env
                   (h ++ map (fun x => Download (Some (url x)) output) (firstn i xs))
                   (Some (url x)) output
                 = Ok data).
Proof.
  induction xs as [|x rest IH]; intros result h h' v; simpl for_append.
  - intros [= _ <-]. exists []. rewrite app_nil_r.
    split; [reflexivity|]. split; [reflexivity|].
    intros [|i] y Hy; discriminate Hy.
  - unfold bind at 1. unfold client_download at 1.
    destruct (http_download env h (Some (url x)) output) as [data0|e] eqn:Hdown;
      [|discriminate].
    intro Hrun. destruct (IH _ _ _ _ Hrun) as (vs & -> & Hlen & Hnth).
    exists (data0 :: vs). rewrite <- app_assoc.
    split; [reflexivity|]. split; [simpl; now rewrite Hlen|].
    intros [|i] y Hy; simpl in Hy.
    + injection Hy as <-. exists data0. simpl. now rewrite app_nil_r.
    + destruct (Hnth i y Hy) as (data & Hdata & Hanswer).
      exists data. split; [exact Hdata|].
      simpl. rewrite <- app_assoc in Hanswer. exact Hanswer.
Qed.

(** X20: the list [ILLUST.download] returns follows the selected texts: it
    has one entry per text, and its i-th entry is the answer the transport
    gave, in this call, to the download of the i-th text with the caller's
    [output], issued after the detail request and the downloads of the
    texts before it. *)
Theorem ILLUST_download_results_in_order
    (env : Env) (id : Z) (full : bool) (filter : PyVal)
    (output : option string) (h : History) (detail : IllustDetailResult)
    (v : list (option bytes)) :
  outcome (ILLUST_detail env id filter) h = Ok detail ->
  type_ (illust detail) <> ArtWorkType.ugoira ->
  outcome (ILLUST_download env id full filter output) h = Ok v ->
  List.length v = List.length (selected_urls full (illust detail))
  /\ (forall i u,
        nth_error (selected_urls full (illust detail)) i = Some u ->
        exists data,
          nth_error v i = Some data
          /\ http_download env
               (h ++ detail_request id filter
                  :: map (fun u => Download (Some u) output)
                         (firstn i (selected_urls full (illust detail))))
               (Some u) output
             = Ok data).
Proof.
  intros Hdetail Htype.
  unfold outcome, ILLUST_download, selected_urls.
  rewrite (bind_Ok _ _ _ _ _ (ILLUST_detail_Ok env id filter h detail Hdetail)).
  unfold bind at 1, lift. rewrite (eq_ugoira_false _ Htype).
  destruct (negb full || is_empty (meta_pages (illust detail)))%bool.
  - unfold bind, client_download.
    destruct (http_download env _ _ output) as [data|e] eqn:Hdown;
      simpl snd; [|discriminate].
    intros [= <-]. split; [reflexivity|].
    intros [|i] u Hu; simpl in Hu.
    + injection Hu as <-. exists data. split; [reflexivity|exact Hdown].
    + destruct i; discriminate Hu.
  - destruct (for_append _ _ _ _) as [h' r] eqn:Hrun. simpl snd. intros ->.
    destruct (downloads_results env meta_page_url output _ _ _ _ _ Hrun)
      as (vs & -> & Hlen & Hnth).
    simpl app. split; [now rewrite length_map|].
    intros i u Hu. rewrite nth_error_map in Hu.
    destruct (nth_error (meta_pages (illust detail)) i) as [page|] eqn:Hpage;
      [|discriminate Hu].
    injection Hu as <-.
    destruct (Hnth i page Hpage) as (data & Hdata & Hanswer).
    exists data. split; [exact Hdata|].
    rewrite firstn_map, map_map.
    rewrite <- app_assoc in Hanswer. exact Hanswer.
Qed.

Lemma ILLUST_download_results_in_order_witness :
  List.length [Some frame0; Some frame0] = List.length (selected_urls true album)
  /\ (forall i u,
        nth_error (selected_urls true album) i = Some u ->
        exists data,
          nth_error [Some frame0; Some frame0] i = Some data
          /\ http_download gallery
               ([] ++ detail_request 9 PNone
                   :: map (fun u => Download (Some u) None)
                          (firstn i (selected_urls true album)))
               (Some u) None
             = Ok data).
Proof.
  apply (ILLUST_download_results_in_order gallery 9 true PNone None []
           {| illust := album |}).
  - reflexivity.
  - discriminate.
  - reflexivity.
Defined.

(** X21: [full] has no effect on an artwork without meta pages: the call
    takes the single-page branch, as without [full]. *)
Theorem download_full_without_meta_pages
    (env : Env) (id : Z) (filter : PyVal) (output : option string)
    (h : History) :
  (forall detail,
      outcome (ILLUST_detail env id filter) h = Ok detail ->
      meta_pages (illust detail) = []) ->
  ILLUST_download env id true filter output h
  = ILLUST_download env id false filter output h
  /\ (forall self,
        meta_pages self = [] ->
        ArtWork_download env self true output h
        = ArtWork_download env self false output h).
Proof.
  intro Hpages. split.
  - unfold ILLUST_download.
    destruct (ILLUST_detail env id filter h) as [h' [detail|e]] eqn:Hrun.
    + rewrite !(bind_Ok _ _ _ _ _ Hrun).
      now rewrite (Hpages detail (outcome_of_run _ _ _ _ Hrun)).
    + now rewrite !(bind_Raise _ _ _ _ _ Hrun).
  - intros self Hself. unfold ArtWork_download. now rewrite Hself.
Qed.

Lemma download_full_without_meta_pages_witness :
  ILLUST_download world 8 true PNone None []
  = ILLUST_download world 8 false PNone None [].
Proof.
  apply (download_full_without_meta_pages world 8 PNone None []).
  intros detail [= <-]. reflexivity.
Defined.
